(** * Invoice server actions of the dashboard: a shallow embedding

    The development follows [src/dbtest.js]: the zod form schema
    ([FormSchema], [CreateInvoice], [UpdateInvoice]), the three invoice
    actions ([createInvoice], [updateInvoice], [deleteInvoice]) and the
    sign-in action ([authenticate]).

    The collaborators the actions call (the JavaScript runtime's [Number]
    coercion, zod's parsers and [format], the SQL client, [revalidatePath],
    [redirect], [signIn]) are modelled by their documented behaviour; the
    actions themselves are transcribed statement by statement into a small
    state-and-exception monad whose state records the invoices table and
    the trace of the signals issued. *)

From Stdlib Require Import ZArith Bool List String Ascii.
From Stdlib Require Import Floats.PrimFloat Floats.FloatOps Floats.SpecFloat.
From Stdlib Require Import Numbers.Cyclic.Int63.Uint63.
Import ListNotations.

Set Warnings "-register-all,-inexact-float".

Local Open Scope string_scope.
Local Open Scope Z_scope.

(* ================================================================== *)
(** ** JavaScript numbers and the [Number] coercion *)
(* ================================================================== *)

Module Js.

(** A JavaScript number is an IEEE-754 binary64 value; [*] is
    [PrimFloat.mul]. *)
Definition number := float.

(** Strings are sequences of code units; the model covers the code
    units 0..255. *)
Definition is_whitespace (c : ascii) : bool :=
  match N_of_ascii c with
  | 9%N | 10%N | 11%N | 12%N | 13%N | 32%N | 160%N => true
  | _ => false
  end.

Fixpoint trim_start (l : list ascii) : list ascii :=
  match l with
  | c :: r => if is_whitespace c then trim_start r else l
  | [] => []
  end.

Definition trim (l : list ascii) : list ascii :=
  rev (trim_start (rev (trim_start l))).

Definition digit_value (base : Z) (c : ascii) : option Z :=
  let n := Z.of_N (N_of_ascii c) in
  let v :=
    if (48 <=? n) && (n <=? 57) then n - 48
    else if (97 <=? n) && (n <=? 102) then n - 87
    else if (65 <=? n) && (n <=? 70) then n - 55
    else 99 in
  if v <? base then Some v else None.

(** Longest prefix of digits of the given base, and what follows it. *)
Fixpoint span_digits (base : Z) (l : list ascii) : list Z * list ascii :=
  match l with
  | c :: r =>
      match digit_value base c with
      | Some d => let (ds, rest) := span_digits base r in (d :: ds, rest)
      | None => ([], l)
      end
  | [] => ([], [])
  end.

Definition digits_value (base : Z) (ds : list Z) : Z :=
  fold_left (fun acc d => base * acc + d) ds 0.

(** floor (log2 (p / q)) for positive [p], [q]. *)
Definition floor_log2_ratio (p q : Z) : Z :=
  let e0 := Z.log2 p - Z.log2 q in
  if p * 2 ^ Z.max 0 (- e0) <? q * 2 ^ Z.max 0 e0 then e0 - 1 else e0.

(** The binary64 value nearest to [p / q] (ties to even), for [0 <= p]
    and [0 < q]: the value a numeric literal denotes. *)
Definition ratio_to_number (p q : Z) : number :=
  if p =? 0 then zero else
  let E := floor_log2_ratio p q in
  if 1024 <=? E then infinity else
  let k := Z.max (E - 52) (-1074) in
  let N := p * 2 ^ Z.max 0 (- k) in
  let D := q * 2 ^ Z.max 0 k in
  let n := N / D in
  let r := N mod D in
  let n' := match 2 * r ?= D with
            | Lt => n
            | Gt => n + 1
            | Eq => if Z.even n then n else n + 1
            end in
  FloatOps.Z.ldexp (PrimFloat.of_uint63 (Uint63.of_Z n')) k.

Definition decimal_to_number (m e10 : Z) : number :=
  ratio_to_number (m * 10 ^ Z.max 0 e10) (10 ^ Z.max 0 (- e10)).

(** ExponentPart_opt followed by the end of the literal. *)
Definition parse_exponent (l : list ascii) : option Z :=
  match l with
  | [] => Some 0
  | c :: r =>
      if (Ascii.eqb c "e" || Ascii.eqb c "E")%bool then
        let '(sgn, r') :=
          match r with
          | "+"%char :: t => (1, t)
          | "-"%char :: t => (-1, t)
          | _ => (1, r)
          end in
        match span_digits 10 r' with
        | (d :: ds, []) => Some (sgn * digits_value 10 (d :: ds))
        | _ => None
        end
      else None
  end.

(** StrUnsignedDecimalLiteral other than [Infinity]: mantissa and
    decimal exponent. *)
Definition parse_unsigned_decimal (l : list ascii) : option (Z * Z) :=
  let (ip, r1) := span_digits 10 l in
  let (fp, r2) :=
    match r1 with
    | "."%char :: t => span_digits 10 t
    | _ => ([], r1)
    end in
  match (ip ++ fp)%list with
  | [] => None
  | ds =>
      match parse_exponent r2 with
      | Some e => Some (digits_value 10 ds, e - Z.of_nat (List.length fp))
      | None => None
      end
  end.

Definition parse_unsigned (l : list ascii) : number :=
  if list_eq_dec ascii_dec l (list_ascii_of_string "Infinity")
  then infinity
  else match parse_unsigned_decimal l with
       | Some (m, e) => decimal_to_number m e
       | None => nan
       end.

(** NonDecimalIntegerLiteral: [0x], [0o], [0b] followed by digits. *)
Definition parse_non_decimal (l : list ascii) : option number :=
  match l with
  | "0"%char :: p :: r =>
      let base :=
        if (Ascii.eqb p "x" || Ascii.eqb p "X")%bool then Some 16
        else if (Ascii.eqb p "o" || Ascii.eqb p "O")%bool then Some 8
        else if (Ascii.eqb p "b" || Ascii.eqb p "B")%bool then Some 2
        else None in
      match base with
      | Some b =>
          match span_digits b r with
          | (d :: ds, []) =>
              Some (ratio_to_number (digits_value b (d :: ds)) 1)
          | _ => Some nan
          end
      | None => None
      end
  | _ => None
  end.

(** [Number(s)] for a string [s] (StringToNumber). *)
Definition StringToNumber (s : string) : number :=
  match trim (list_ascii_of_string s) with
  | [] => zero
  | l =>
      match parse_non_decimal l with
      | Some v => v
      | None =>
          match l with
          | "+"%char :: r => parse_unsigned r
          | "-"%char :: r => PrimFloat.opp (parse_unsigned r)
          | _ => parse_unsigned l
          end
      end
  end.

(** [Math.round]: the integer nearest to [x], halves going up. *)
Definition Math_round (x : number) : number :=
  match Prim2SF x with
  | S754_finite s m e =>
      if 0 <=? e then x
      else
        let v := if s then Z.neg m else Z.pos m in
        let r := (2 * v + 2 ^ (- e)) / 2 ^ (1 - e) in
        if r =? 0 then (if s then neg_zero else zero)
        else if r <? 0
             then PrimFloat.opp (PrimFloat.of_uint63 (Uint63.of_Z (- r)))
             else PrimFloat.of_uint63 (Uint63.of_Z r)
  | _ => x
  end.

End Js.

(* ================================================================== *)
(** ** Form data and untyped result values *)
(* ================================================================== *)

(** [FormDataEntryValue]: a form entry is a string or an uploaded file. *)
Inductive FormDataEntryValue :=
| EntryString (s : string)
| EntryFile (name : string).

(** [FormData]: entries in submission order; a name may occur twice. *)
Definition FormData := list (string * FormDataEntryValue).

(** [formData.get(name)]: the first entry of that name, else [null]
    ([None]). *)
Fixpoint get (name : string) (formData : FormData)
  : option FormDataEntryValue :=
  match formData with
  | [] => None
  | (k, v) :: rest => if String.eqb k name then Some v else get name rest
  end.

(** [Number(v)] for what [formData.get] can return: [null] is [0], a
    string goes through StringToNumber, a [File] object stringifies to
    ["[object File]"] and is [NaN]. *)
Definition Number (v : option FormDataEntryValue) : Js.number :=
  match v with
  | None => PrimFloat.zero
  | Some (EntryString s) => Js.StringToNumber s
  | Some (EntryFile _) => PrimFloat.nan
  end.

(** Values the actions build and hand back (error objects, logged
    objects). Object properties are kept in insertion order. *)
Inductive JsVal :=
| JNull
| JString (s : string)
| JFile (name : string)
| JArray (items : list JsVal)
| JObject (props : list (string * JsVal)).

Definition of_entry (v : option FormDataEntryValue) : JsVal :=
  match v with
  | None => JNull
  | Some (EntryString s) => JString s
  | Some (EntryFile n) => JFile n
  end.

Fixpoint prop_get (k : string) (props : list (string * JsVal))
  : option JsVal :=
  match props with
  | [] => None
  | (k', v) :: rest => if String.eqb k' k then Some v else prop_get k rest
  end.

(** [obj[k] = v]: overwrite in place, or add as the last property. *)
Fixpoint prop_set (k : string) (v : JsVal) (props : list (string * JsVal))
  : list (string * JsVal) :=
  match props with
  | [] => [(k, v)]
  | (k', v') :: rest =>
      if String.eqb k' k then (k, v) :: rest
      else (k', v') :: prop_set k v rest
  end.

(* ================================================================== *)
(** ** The validation engine (zod) *)
(* ================================================================== *)

Module Zod.

Inductive ZodIssueCode := invalid_type | invalid_enum_value.

Record ZodIssue := mkIssue {
  code : ZodIssueCode;
  path : list string;
  message : string
}.

(** Result of parsing one value: the typed value or the issues. *)
Inductive ParseReturn (A : Type) :=
| OK (value : A)
| INVALID (issues : list ZodIssue).
Arguments OK {A} value.
Arguments INVALID {A} issues.

(** A schema is the parser it denotes, run at a path of the input. *)
Definition ZodType (A : Type) :=
  list string -> option FormDataEntryValue -> ParseReturn A.

(** [getParsedType] on the values a form field can hold. *)
Definition parsedType (v : option FormDataEntryValue) : string :=
  match v with
  | None => "null"
  | Some (EntryString _) => "string"
  | Some (EntryFile _) => "object"
  end.

(** Message of an [invalid_type] issue: the schema's
    [invalid_type_error] when given, else the default error map's. *)
Definition invalid_type_message (invalid_type_error : option string)
    (expected received : string) : string :=
  match invalid_type_error with
  | Some m => m
  | None => "Expected " ++ expected ++ ", received " ++ received
  end.

(** [z.string({ invalid_type_error })]: any string, the empty one
    included; there is no length check. *)
Definition string (invalid_type_error : option String.string)
  : ZodType String.string :=
  fun p v =>
    match v with
    | Some (EntryString s) => OK s
    | _ => INVALID [mkIssue invalid_type p
                      (invalid_type_message invalid_type_error
                         "string" (parsedType v))]
    end.

(** [z.coerce.number()]: the input is replaced by [Number(input)], and
    anything but [NaN] is a number (infinities included). *)
Definition coerce_number : ZodType Js.number :=
  fun p v =>
    let data := Number v in
    if PrimFloat.is_nan data
    then INVALID [mkIssue invalid_type p
                    (invalid_type_message None "number" "nan")]
    else OK data.

(** [util.joinValues]: ['a' | 'b']. *)
Fixpoint joinValues (values : list String.string) : String.string :=
  match values with
  | [] => ""
  | [v] => "'" ++ v ++ "'"
  | v :: rest => "'" ++ v ++ "' | " ++ joinValues rest
  end.

Definition includes (s : String.string) (values : list String.string)
  : bool :=
  existsb (String.eqb s) values.

(** [z.enum(values, { invalid_type_error })]. *)
Definition enum (values : list String.string)
    (invalid_type_error : option String.string) : ZodType String.string :=
  fun p v =>
    match v with
    | Some (EntryString s) =>
        if includes s values then OK s
        else INVALID [mkIssue invalid_enum_value p
                        ("Invalid enum value. Expected " ++
                         joinValues values ++ ", received '" ++ s ++ "'")]
    | _ => INVALID [mkIssue invalid_type p
                      (invalid_type_message invalid_type_error
                         (joinValues values) (parsedType v))]
    end.

Definition issues_of {A} (r : ParseReturn A) : list ZodIssue :=
  match r with
  | OK _ => []
  | INVALID l => l
  end.

(** [safeParse]'s result. *)
Inductive SafeParseReturn (A : Type) :=
| SafeParseSuccess (data : A)
| SafeParseError (error : list ZodIssue).
Arguments SafeParseSuccess {A} data.
Arguments SafeParseError {A} error.

Definition success {A} (r : SafeParseReturn A) : bool :=
  match r with
  | SafeParseSuccess _ => true
  | SafeParseError _ => false
  end.

(** [ZodError.format()]: a tree of [{ _errors: [...] }] nodes, one
    level per path element. *)
Definition empty_node : JsVal := JObject [("_errors", JArray [])].

Definition push_error (msg : String.string) (node : JsVal) : JsVal :=
  match node with
  | JObject props =>
      match prop_get "_errors" props with
      | Some (JArray l) =>
          JObject (prop_set "_errors" (JArray (l ++ [JString msg])) props)
      | _ => node
      end
  | _ => node
  end.

Fixpoint add_issue (p : list String.string) (msg : String.string)
    (curr : JsVal) : JsVal :=
  match p with
  | [] => push_error msg curr
  | el :: rest =>
      match curr with
      | JObject props =>
          let child := match prop_get el props with
                       | Some c => c
                       | None => empty_node
                       end in
          JObject (prop_set el (add_issue rest msg child) props)
      | _ => curr
      end
  end.

Definition format (error : list ZodIssue) : JsVal :=
  fold_left (fun fieldErrors issue =>
               add_issue (path issue) (message issue) fieldErrors)
            error empty_node.

(** The raw object the invoice actions hand to [safeParse]. *)
Record RawInvoice := {
  raw_customerId : option FormDataEntryValue;
  raw_amount : option FormDataEntryValue;
  raw_status : option FormDataEntryValue
}.

(** What a successful parse yields ([validatedFields.data]). *)
Record InvoiceData := {
  customerId : String.string;
  amount : Js.number;
  status : String.string
}.

(** [z.object] over the keys [customerId], [amount], [status]: every
    key is parsed at its own path, in shape order, and the issues of
    all keys are collected. *)
Definition object (customerId_schema : ZodType String.string)
    (amount_schema : ZodType Js.number)
    (status_schema : ZodType String.string)
    (input : RawInvoice) : SafeParseReturn InvoiceData :=
  let c := customerId_schema ["customerId"] (raw_customerId input) in
  let a := amount_schema ["amount"] (raw_amount input) in
  let s := status_schema ["status"] (raw_status input) in
  match c, a, s with
  | OK c', OK a', OK s' =>
      SafeParseSuccess {| customerId := c'; amount := a'; status := s' |}
  | _, _, _ => SafeParseError (issues_of c ++ issues_of a ++ issues_of s)
  end.

End Zod.

(** [FormSchema]: the five fields of the form schema. *)
Module FormSchema.
Definition id := Zod.string None.
Definition customerId := Zod.string (Some "Please select a customer").
Definition amount := Zod.coerce_number.
Definition status :=
  Zod.enum ["pending"; "paid"] (Some "Please select invoice status").
Definition date := Zod.string None.
End FormSchema.

(** [FormSchema.omit({ id: true, date: true })]: the object schema over
    the three fields that remain. *)
Definition CreateInvoice :=
  Zod.object FormSchema.customerId FormSchema.amount FormSchema.status.

Definition UpdateInvoice :=
  Zod.object FormSchema.customerId FormSchema.amount FormSchema.status.

(** [State]: what an action hands back to the form. *)
Record State := {
  errors : option JsVal;
  message : option string
}.

(** The declared type of [State.errors]:
    [{ customerId?: string[]; amount?: string[]; status?: string[] }]. *)
Definition is_string_array (v : JsVal) : bool :=
  match v with
  | JArray items =>
      forallb (fun i => match i with JString _ => true | _ => false end) items
  | _ => false
  end.

Definition optional_string_array (k : string) (props : list (string * JsVal))
  : bool :=
  match prop_get k props with
  | None => true
  | Some v => is_string_array v
  end.

Definition errors_well_typed (v : JsVal) : bool :=
  match v with
  | JObject props =>
      optional_string_array "customerId" props
      && optional_string_array "amount" props
      && optional_string_array "status" props
  | _ => false
  end.

Definition State_well_typed (s : State) : bool :=
  match errors s with
  | None => true
  | Some e => errors_well_typed e
  end.

(* ================================================================== *)
(** ** Storage, signals and the action monad *)
(* ================================================================== *)

Record InvoiceRow := {
  row_id : string;
  row_customer_id : string;
  row_amount : Js.number;
  row_status : string;
  row_date : string
}.

(** The three statements the actions issue, with their bound values. *)
Inductive SqlStatement :=
| INSERT_INTO_invoices
    (customer_id : string) (amount : Js.number) (status date : string)
| UPDATE_invoices
    (customer_id : string) (amount : Js.number) (status : string)
    (where_id : string)
| DELETE_FROM_invoices (where_id : string).

Inductive Event :=
| EvSql (statement : SqlStatement)
| EvRevalidatePath (p : string)
| EvRedirect (p : string)
| EvConsoleLog (v : JsVal).

(** What can be thrown. [AuthError] stands for every instance of that
    class (subclasses included), told apart by [type]. *)
Inductive Exn :=
| NEXT_REDIRECT (url : string)
| DatabaseError (detail : string)
| AuthError (type : string)
| OtherError (detail : string).

Record World := {
  invoices : list InvoiceRow;
  now : string;            (* [new Date().toISOString()] *)
  trace : list Event
}.

Inductive Outcome (A : Type) :=
| Return (a : A)
| Throw (e : Exn).
Arguments Return {A} a.
Arguments Throw {A} e.

Definition Action (A : Type) := World -> Outcome A * World.

Definition ret {A} (a : A) : Action A := fun w => (Return a, w).

Definition throw {A} (e : Exn) : Action A := fun w => (Throw e, w).

Definition bind {A B} (m : Action A) (f : A -> Action B) : Action B :=
  fun w =>
    match m w with
    | (Return a, w') => f a w'
    | (Throw e, w') => (Throw e, w')
    end.

Definition try_catch {A} (body : Action A) (handler : Exn -> Action A)
  : Action A :=
  fun w =>
    match body w with
    | (Return a, w') => (Return a, w')
    | (Throw e, w') => handler e w'
    end.

Declare Scope action_scope.
Delimit Scope action_scope with action.
Notation "x <- m ;; k" := (bind m (fun x => k))
  (at level 61, m at next level, right associativity) : action_scope.
Notation "m ;; k" := (bind m (fun _ => k))
  (at level 61, right associativity) : action_scope.
Local Open Scope action_scope.

Definition emit (e : Event) : Action unit :=
  fun w => (Return tt,
            {| invoices := invoices w; now := now w;
               trace := trace w ++ [e] |}).

(** [revalidatePath(path)]: the cache-invalidation signal. *)
Definition revalidatePath (p : string) : Action unit :=
  emit (EvRevalidatePath p).

(** [redirect(path)]: signals the redirect by throwing. *)
Definition redirect (p : string) : Action unit :=
  emit (EvRedirect p) ;; throw (NEXT_REDIRECT p).

Definition console_log (v : JsVal) : Action unit :=
  emit (EvConsoleLog v).

(** [s.split('T')[0]]. *)
Fixpoint split_T_0 (s : string) : string :=
  match s with
  | EmptyString => EmptyString
  | String c r => if Ascii.eqb c "T" then EmptyString
                  else String c (split_T_0 r)
  end.

(** [new Date().toISOString().split('T')[0]]. *)
Definition today : Action string :=
  fun w => (Return (split_T_0 (now w)), w).

(** What each statement does to the invoices table when it succeeds. *)
Definition set_invoice (customer_id : string) (amount : Js.number)
    (status : string) (r : InvoiceRow) : InvoiceRow :=
  {| row_id := row_id r;
     row_customer_id := customer_id;
     row_amount := amount;
     row_status := status;
     row_date := row_date r |}.

Section Storage.

(** The database engine: which id a new row gets, and whether a
    statement fails on the current table (unreachable server,
    constraint violation, ...) and with which error. *)
Variable gen_id : list InvoiceRow -> string.
Variable db_fault : SqlStatement -> list InvoiceRow -> option Exn.

Definition execute (st : SqlStatement) (rows : list InvoiceRow)
  : list InvoiceRow :=
  match st with
  | INSERT_INTO_invoices c a s d =>
      rows ++ [ {| row_id := gen_id rows; row_customer_id := c;
                   row_amount := a; row_status := s; row_date := d |} ]
  | UPDATE_invoices c a s i =>
      map (fun r => if String.eqb (row_id r) i
                    then set_invoice c a s r else r) rows
  | DELETE_FROM_invoices i =>
      filter (fun r => negb (String.eqb (row_id r) i)) rows
  end.

(** [await sql`...`]: one statement, which either takes effect as a
    whole or throws and leaves the table as it was. *)
Definition sql (st : SqlStatement) : Action unit :=
  fun w =>
    let w' := {| invoices := invoices w; now := now w;
                 trace := trace w ++ [EvSql st] |} in
    match db_fault st (invoices w) with
    | Some e => (Throw e, w')
    | None =>
        (Return tt,
         {| invoices := execute st (invoices w); now := now w;
            trace := trace w' |})
    end.

(** The raw object handed to [safeParse]. *)
Definition raw_fields (formData : FormData) : Zod.RawInvoice :=
  {| Zod.raw_customerId := get "customerId" formData;
     Zod.raw_amount := get "amount" formData;
     Zod.raw_status := get "status" formData |}.

Definition createInvoice (prevState : State) (formData : FormData)
  : Action (option State) :=
  let validatedFields := CreateInvoice (raw_fields formData) in
  match validatedFields with
  | Zod.SafeParseError error =>
      ret (Some {| errors := Some (Zod.format error);
                   message := Some "Validation failed" |})
  | Zod.SafeParseSuccess data =>
      let customerId := Zod.customerId data in
      let amount := Zod.amount data in
      let status := Zod.status data in
      let amountInCents := (amount * 100)%float in
      date <- today ;;
      caught <-
        try_catch
          (sql (INSERT_INTO_invoices customerId amountInCents status date) ;;
           ret None)
          (fun error =>
             ret (Some {| errors := None;
                          message :=
                            Some "Database Error: failed to create invoice"
                       |})) ;;
      match caught with
      | Some result => ret (Some result)
      | None =>
          revalidatePath "/dashboard/invoices" ;;
          redirect "/dashboard/invoices" ;;
          let rawFormData :=
            JObject [("customerId", of_entry (get "customerId" formData));
                     ("amount", of_entry (get "amount" formData));
                     ("status", of_entry (get "status" formData))] in
          console_log rawFormData ;;
          ret None
      end
  end.

Definition updateInvoice (id : string) (prevState : State)
    (formData : FormData) : Action (option State) :=
  let validatedFields := UpdateInvoice (raw_fields formData) in
  match validatedFields with
  | Zod.SafeParseError error =>
      ret (Some {| errors := Some (Zod.format error);
                   message := Some "Validation failed" |})
  | Zod.SafeParseSuccess data =>
      let customerId := Zod.customerId data in
      let amount := Zod.amount data in
      let status := Zod.status data in
      let amountInCents := (amount * 100)%float in
      caught <-
        try_catch
          (sql (UPDATE_invoices customerId amountInCents status id) ;;
           ret None)
          (fun error =>
             ret (Some {| errors := None;
                          message :=
                            Some "Database error: failed to update invoice"
                       |})) ;;
      match caught with
      | Some result => ret (Some result)
      | None =>
          revalidatePath "/dashboard/invoices" ;;
          redirect "/dashboard/invoices" ;;
          ret None
      end
  end.

Definition deleteInvoice (id : string) : Action (option State) :=
  try_catch
    (sql (DELETE_FROM_invoices id) ;;
     revalidatePath "/dashboard/invoices" ;;
     ret None)
    (fun error =>
       ret (Some {| errors := None;
                    message :=
                      Some "Database error: failed to delete invoice" |})).

End Storage.

Section SignIn.

(** [signIn(provider, formData)] of the authentication library: any
    computation, which may throw. *)
Variable signIn : string -> FormData -> Action unit.

Definition authenticate (prevState : option string) (formData : FormData)
  : Action (option string) :=
  try_catch
    (signIn "credentials" formData ;; ret None)
    (fun error =>
       match error with
       | AuthError type =>
           if String.eqb type "CredentialsSignin"
           then ret (Some "Invalid credentials.")
           else ret (Some "Something went wrong.")
       | _ => throw error
       end).

End SignIn.

(* ================================================================== *)
(** ** Observations on runs *)
(* ================================================================== *)

Local Open Scope list_scope.

(** The SQL statements among the signals of a trace, in order. *)
Fixpoint issued_statements (t : list Event) : list SqlStatement :=
  match t with
  | [] => []
  | EvSql st :: r => st :: issued_statements r
  | _ :: r => issued_statements r
  end.

(** The form passes the validation step of the invoice actions. *)
Definition passes_validation (formData : FormData) : bool :=
  Zod.success (CreateInvoice (raw_fields formData)).

Definition is_string_entry (v : option FormDataEntryValue) : bool :=
  match v with
  | Some (EntryString _) => true
  | _ => false
  end.

(** A field of the form that the validation rules reject: a customerId
    that is missing or not a string, an amount that does not coerce to a
    number, a status that is not one of "pending", "paid". *)
Definition offending (field : string) (formData : FormData) : bool :=
  if String.eqb field "customerId" then
    negb (is_string_entry (get "customerId" formData))
  else if String.eqb field "amount" then
    PrimFloat.is_nan (Number (get "amount" formData))
  else if String.eqb field "status" then
    match get "status" formData with
    | Some (EntryString s) =>
        negb (String.eqb s "pending" || String.eqb s "paid")
    | _ => true
    end
  else false.

(** [errors[field]._errors]: the error list a formatted error carries
    for a field. *)
Definition field_errors (field : string) (errs : JsVal)
  : option (list JsVal) :=
  match errs with
  | JObject props =>
      match prop_get field props with
      | Some (JObject node) =>
          match prop_get "_errors" node with
          | Some (JArray l) => Some l
          | _ => None
          end
      | _ => None
      end
  | _ => None
  end.

(** The issues of a parse result, and those raised at a given path. *)
Definition issues {A} (r : Zod.SafeParseReturn A) : list Zod.ZodIssue :=
  match r with
  | Zod.SafeParseSuccess _ => []
  | Zod.SafeParseError error => error
  end.

Definition at_path (p : list string) (l : list Zod.ZodIssue)
  : list Zod.ZodIssue :=
  filter (fun i => if list_eq_dec string_dec (Zod.path i) p
                   then true else false) l.

(** The cache invalidations, redirects and log lines of a trace. *)
Definition revalidations (t : list Event) : list Event :=
  filter (fun e => match e with EvRevalidatePath _ => true | _ => false end) t.

Definition redirects (t : list Event) : list Event :=
  filter (fun e => match e with EvRedirect _ => true | _ => false end) t.

Definition console_logs (t : list Event) : list Event :=
  filter (fun e => match e with EvConsoleLog _ => true | _ => false end) t.

(** The world once a statement has been issued and has failed. *)
Definition after_failure (st : SqlStatement) (w : World) : World :=
  {| invoices := invoices w; now := now w; trace := trace w ++ [EvSql st] |}.

(** The world once a statement has taken effect and the signals that
    follow it have been sent. *)
Definition after_success (gen_id : list InvoiceRow -> string)
    (st : SqlStatement) (signals : list Event) (w : World) : World :=
  {| invoices := execute gen_id st (invoices w);
     now := now w;
     trace := trace w ++ EvSql st :: signals |}.

(** A sign-in procedure that always fails with the given error. *)
Definition signIn_rejects (e : Exn) : string -> FormData -> Action unit :=
  fun _ _ => throw e.

Definition is_AuthError (e : Exn) : bool :=
  match e with
  | AuthError _ => true
  | _ => false
  end.

(** Sample environments and inputs. *)
Definition no_fault : SqlStatement -> list InvoiceRow -> option Exn :=
  fun _ _ => None.

Definition unreachable : SqlStatement -> list InvoiceRow -> option Exn :=
  fun _ _ => Some (DatabaseError "connect ECONNREFUSED").

Definition next_id (rows : list InvoiceRow) : string := "inv-new".

Definition form (customerId amount status : string) : FormData :=
  [("customerId", EntryString customerId);
   ("amount", EntryString amount);
   ("status", EntryString status)].

Definition no_state : State := {| errors := None; message := None |}.

Definition sample_rows : list InvoiceRow :=
  [ {| row_id := "inv-1"; row_customer_id := "c1";
       row_amount := 5000%float; row_status := "pending";
       row_date := "2024-01-15" |};
    {| row_id := "inv-2"; row_customer_id := "c2";
       row_amount := 1234%float; row_status := "paid";
       row_date := "2024-02-20" |} ].

Definition sample_world : World :=
  {| invoices := sample_rows;
     now := "2024-05-01T10:00:00.000Z";
     trace := [] |}.

(** The validation rule for customerId in the words of the
    specification: customerId must be a non-empty identifier string. A
    value breaks it when it is missing, not a string, or the empty
    string. (The rule the code applies is [offending "customerId"].) *)
Definition customerId_invalid_by_rule (v : option FormDataEntryValue)
  : bool :=
  match v with
  | Some (EntryString s) => String.eqb s ""
  | _ => true
  end.

(** The error tree a validation failure hands back for a form. *)
Definition validation_errors (formData : FormData) : JsVal :=
  Zod.format (issues (CreateInvoice (raw_fields formData))).

(** [errors._errors]: the error list at the root of a formatted error. *)
Definition root_errors (errs : JsVal) : option (list JsVal) :=
  match errs with
  | JObject props =>
      match prop_get "_errors" props with
      | Some (JArray l) => Some l
      | _ => None
      end
  | _ => None
  end.

(** A string made of whitespace only (the empty string included). *)
Definition blank (s : string) : bool :=
  forallb Js.is_whitespace (list_ascii_of_string s).

(** The amount field is absent, or present and blank. *)
Definition blank_amount (formData : FormData) : bool :=
  match get "amount" formData with
  | None => true
  | Some (EntryString s) => blank s
  | Some (EntryFile _) => false
  end.

(** A string without the letter T. *)
Fixpoint no_T (s : string) : bool :=
  match s with
  | EmptyString => true
  | String c r => negb (Ascii.eqb c "T") && no_T r
  end.

(** The status column holds one of the two values of the enum. *)
Definition valid_status (r : InvoiceRow) : bool :=
  String.eqb (row_status r) "pending" || String.eqb (row_status r) "paid".

(** Some row of the table has the given id. *)
Definition has_id (id : string) (rows : list InvoiceRow) : bool :=
  existsb (fun r => String.eqb (row_id r) id) rows.

(* ================================================================== *)
(** ** Properties *)
(* ================================================================== *)

(** The coercion on sample literals: what [Number] gives is the number
    the same literal denotes. *)
Example StringToNumber_decimal :
  Js.StringToNumber "12.34" = 12.34%float
  /\ Js.StringToNumber "1.1" = 1.1%float
  /\ Js.StringToNumber "50" = 50%float
  /\ Js.StringToNumber " -7.5e2 " = (-750)%float
  /\ Js.StringToNumber ".5" = 0.5%float
  /\ Js.StringToNumber "0.1" = 0.1%float
  /\ Js.StringToNumber "1e23" = 1e23%float
  /\ Js.StringToNumber "9007199254740993" = 9007199254740992%float
  /\ Js.StringToNumber "5e-324" = 5e-324%float.
Proof. repeat split. Qed.

Example StringToNumber_special :
  Js.StringToNumber "" = 0%float
  /\ Js.StringToNumber "   " = 0%float
  /\ Js.StringToNumber "0x1F" = 31%float
  /\ Js.StringToNumber "Infinity" = infinity
  /\ Js.StringToNumber "-Infinity" = neg_infinity
  /\ Js.StringToNumber "1e400" = infinity
  /\ PrimFloat.is_nan (Js.StringToNumber "abc") = true
  /\ PrimFloat.is_nan (Js.StringToNumber "12.34.5") = true
  /\ PrimFloat.is_nan (Js.StringToNumber "1,5") = true
  /\ PrimFloat.is_nan (Js.StringToNumber "12px") = true.
Proof. repeat split. Qed.

Example Math_round_examples :
  Js.Math_round 2.5%float = 3%float
  /\ Js.Math_round (-2.5)%float = (-2)%float
  /\ Js.Math_round 1234.4%float = 1234%float
  /\ Js.Math_round 0.1%float = 0%float
  /\ Js.Math_round 1234%float = 1234%float.
Proof. repeat split. Qed.

Lemma issued_statements_app (t u : list Event) :
  issued_statements (t ++ u) = issued_statements t ++ issued_statements u.
Proof.
  induction t as [|e t IH]; simpl; [reflexivity|].
  destruct e; simpl; rewrite IH; reflexivity.
Qed.

(** Two numbers that [==] tells apart are different. *)
Lemma number_neq (x y : Js.number) :
  PrimFloat.eqb x y = false -> PrimFloat.eqb x x = true -> x <> y.
Proof.
  intros Hxy Hxx E. rewrite <- E in Hxy. congruence.
Qed.

(** A run of [sql] adds exactly its statement to the statements issued. *)
Lemma sql_issues_one gen_id db_fault st w :
  issued_statements (trace (snd (sql gen_id db_fault st w)))
  = issued_statements (trace w) ++ [st].
Proof.
  unfold sql. destruct (db_fault st (invoices w)); simpl;
    rewrite issued_statements_app; reflexivity.
Qed.

Section Amount.

Variable gen_id : list InvoiceRow -> string.
Variable db_fault : SqlStatement -> list InvoiceRow -> option Exn.

(** Validation succeeds with the coerced amount, untouched. *)
Lemma validated_amount formData :
  passes_validation formData = true ->
  exists c s,
    CreateInvoice (raw_fields formData)
    = Zod.SafeParseSuccess
        {| Zod.customerId := c;
           Zod.amount := Number (get "amount" formData);
           Zod.status := s |}.
Proof.
  unfold passes_validation, CreateInvoice, Zod.object, raw_fields; simpl.
  destruct (FormSchema.customerId _ _) as [c|];
    [|destruct (FormSchema.amount _ _), (FormSchema.status _ _);
      discriminate].
  unfold FormSchema.amount, Zod.coerce_number.
  destruct (PrimFloat.is_nan _);
    [destruct (FormSchema.status _ _); discriminate|].
  destruct (FormSchema.status _ _) as [s|]; [|discriminate].
  intros _. exists c, s. reflexivity.
Qed.

Lemma createInvoice_statement formData prevState w c a s :
  CreateInvoice (raw_fields formData)
  = Zod.SafeParseSuccess
      {| Zod.customerId := c; Zod.amount := a; Zod.status := s |} ->
  issued_statements
    (trace (snd (createInvoice gen_id db_fault prevState formData w)))
  = issued_statements (trace w)
    ++ [INSERT_INTO_invoices c (a * 100)%float s (split_T_0 (now w))].
Proof.
  intros E. unfold createInvoice. rewrite E. simpl.
  unfold bind, try_catch, today. simpl.
  pose proof (sql_issues_one gen_id db_fault
                (INSERT_INTO_invoices c (a * 100)%float s
                   (split_T_0 (now w))) w) as Hs.
  destruct (sql _ _ _ w) as [[[]|e] w1]; simpl in *.
  - rewrite !issued_statements_app. simpl. rewrite Hs, !app_nil_r.
    reflexivity.
  - exact Hs.
Qed.

Lemma updateInvoice_statement id formData prevState w c a s :
  UpdateInvoice (raw_fields formData)
  = Zod.SafeParseSuccess
      {| Zod.customerId := c; Zod.amount := a; Zod.status := s |} ->
  issued_statements
    (trace (snd (updateInvoice gen_id db_fault id prevState formData w)))
  = issued_statements (trace w) ++ [UPDATE_invoices c (a * 100)%float s id].
Proof.
  intros E. unfold updateInvoice. rewrite E. simpl.
  unfold bind, try_catch. simpl.
  pose proof (sql_issues_one gen_id db_fault
                (UPDATE_invoices c (a * 100)%float s id) w) as Hs.
  destruct (sql _ _ _ w) as [[[]|e] w1]; simpl in *.
  - rewrite !issued_statements_app. simpl. rewrite Hs, !app_nil_r.
    reflexivity.
  - exact Hs.
Qed.

End Amount.

(** C1 (as the code has it): for every input that passes validation,
    createInvoice and updateInvoice bind, in their one statement, the
    amount [Number(amount) * 100] computed in binary64 arithmetic, with no
    rounding step; the input string "12.34" yields exactly 1234. *)
Theorem C1_amount_in_cents_is_product
    (gen_id : list InvoiceRow -> string)
    (db_fault : SqlStatement -> list InvoiceRow -> option Exn)
    (id : string) (prevState : State) (formData : FormData) (w : World) :
  passes_validation formData = true ->
  exists c s,
    issued_statements
      (trace (snd (createInvoice gen_id db_fault prevState formData w)))
    = issued_statements (trace w)
      ++ [INSERT_INTO_invoices c
            (Number (get "amount" formData) * 100)%float s
            (split_T_0 (now w))]
    /\ issued_statements
         (trace (snd (updateInvoice gen_id db_fault id prevState formData w)))
       = issued_statements (trace w)
         ++ [UPDATE_invoices c
               (Number (get "amount" formData) * 100)%float s id]
    /\ (Number (Some (EntryString "12.34")) * 100)%float = 1234%float.
Proof.
  intros Hv. destruct (validated_amount formData Hv) as (c & s & E).
  exists c, s. split; [|split].
  - apply createInvoice_statement. exact E.
  - apply updateInvoice_statement. exact E.
  - reflexivity.
Qed.

Lemma C1_amount_in_cents_is_product_witness :
  passes_validation (form "c1" "12.34" "paid") = true
  /\ exists c s,
       issued_statements
         (trace (snd (createInvoice next_id no_fault no_state
                        (form "c1" "12.34" "paid") sample_world)))
       = issued_statements (trace sample_world)
         ++ [INSERT_INTO_invoices c
               (Number (get "amount" (form "c1" "12.34" "paid")) * 100)%float
               s (split_T_0 (now sample_world))]
       /\ issued_statements
            (trace (snd (updateInvoice next_id no_fault "inv-1" no_state
                           (form "c1" "12.34" "paid") sample_world)))
          = issued_statements (trace sample_world)
            ++ [UPDATE_invoices c
                  (Number (get "amount" (form "c1" "12.34" "paid")) * 100)%float
                  s "inv-1"]
       /\ (Number (Some (EntryString "12.34")) * 100)%float = 1234%float.
Proof.
  split; [reflexivity|].
  apply (C1_amount_in_cents_is_product next_id no_fault "inv-1" no_state
           (form "c1" "12.34" "paid") sample_world).
  reflexivity.
Defined.

(** C1 (as stated) fails: for the amount "1.1", which passes validation,
    both actions bind 110.00000000000001, whereas round(amount * 100) is
    110. *)
Lemma C1_no_rounding_counterexample :
  passes_validation (form "c1" "1.1" "paid") = true
  /\ issued_statements
       (trace (snd (createInvoice next_id no_fault no_state
                      (form "c1" "1.1" "paid") sample_world)))
     = [INSERT_INTO_invoices "c1" 110.00000000000001%float "paid"
          "2024-05-01"]
  /\ issued_statements
       (trace (snd (updateInvoice next_id no_fault "inv-1" no_state
                      (form "c1" "1.1" "paid") sample_world)))
     = [UPDATE_invoices "c1" 110.00000000000001%float "paid" "inv-1"]
  /\ Js.Math_round (Number (Some (EntryString "1.1")) * 100)%float
     = 110%float
  /\ 110.00000000000001%float <> 110%float.
Proof.
  repeat split; try reflexivity.
  apply number_neq; reflexivity.
Qed.

(** C2 (as the code has it): when a field offends the rules the schema
    applies (a customerId that is missing or not a string, an amount
    that coerces to NaN, a status that is not the string "pending" or
    "paid"), createInvoice and updateInvoice return the
    validation-failure result, whose errors carry a non-empty error list
    for each offending field, and leave the world as it was: no
    statement is issued, no signal sent, the table untouched. *)
Theorem C2_validation_failure_no_statement
    (gen_id : list InvoiceRow -> string)
    (db_fault : SqlStatement -> list InvoiceRow -> option Exn)
    (id : string) (prevState : State) (formData : FormData) (w : World) :
  (exists field, offending field formData = true) ->
  exists errs,
    createInvoice gen_id db_fault prevState formData w
    = (Return (Some {| errors := Some errs;
                       message := Some "Validation failed" |}), w)
    /\ updateInvoice gen_id db_fault id prevState formData w
       = (Return (Some {| errors := Some errs;
                          message := Some "Validation failed" |}), w)
    /\ forall field,
         offending field formData = true ->
         exists m ms, field_errors field errs = Some (JString m :: ms).
Proof.
  intros [f Hf].
  unfold createInvoice, updateInvoice, CreateInvoice, UpdateInvoice,
    Zod.object, raw_fields, FormSchema.customerId, FormSchema.amount,
    FormSchema.status, Zod.string, Zod.coerce_number, Zod.enum, Zod.includes.
  cbn [Zod.raw_customerId Zod.raw_amount Zod.raw_status existsb].
  unfold offending in *.
  destruct (get "customerId" formData) as [[c|n]|];
  destruct (PrimFloat.is_nan (Number (get "amount" formData)));
  destruct (get "status" formData) as [[s|n']|];
  try (destruct (String.eqb s "pending"); destruct (String.eqb s "paid"));
  cbn [orb negb is_string_entry] in *.
  all: try (exfalso; clear -Hf;
            destruct (String.eqb f "customerId"); [discriminate|];
            destruct (String.eqb f "amount"); [discriminate|];
            destruct (String.eqb f "status"); discriminate).
  all: eexists; split; [reflexivity|split; [reflexivity|]].
  all: clear f Hf; intros f Hf.
  all: destruct (String.eqb f "customerId") eqn:E1;
    [apply String.eqb_eq in E1; subst f; try discriminate Hf;
     cbn; eauto|].
  all: destruct (String.eqb f "amount") eqn:E2;
    [apply String.eqb_eq in E2; subst f; try discriminate Hf;
     cbn; eauto|].
  all: destruct (String.eqb f "status") eqn:E3;
    [apply String.eqb_eq in E3; subst f; try discriminate Hf;
     cbn; eauto|discriminate Hf].
Qed.

Lemma C2_validation_failure_no_statement_witness :
  (exists field,
      offending field [("amount", EntryString "abc");
                       ("status", EntryString "archived")] = true)
  /\ exists errs,
       createInvoice next_id no_fault no_state
         [("amount", EntryString "abc"); ("status", EntryString "archived")]
         sample_world
       = (Return (Some {| errors := Some errs;
                          message := Some "Validation failed" |}),
          sample_world)
       /\ updateInvoice next_id no_fault "inv-1" no_state
            [("amount", EntryString "abc"); ("status", EntryString "archived")]
            sample_world
          = (Return (Some {| errors := Some errs;
                             message := Some "Validation failed" |}),
             sample_world)
       /\ forall field,
            offending field [("amount", EntryString "abc");
                             ("status", EntryString "archived")] = true ->
            exists m ms, field_errors field errs = Some (JString m :: ms).
Proof.
  split.
  - exists "customerId". reflexivity.
  - apply (C2_validation_failure_no_statement next_id no_fault "inv-1"
             no_state
             [("amount", EntryString "abc"); ("status", EntryString "archived")]
             sample_world).
    exists "customerId". reflexivity.
Defined.

(** C2 (as stated) fails: the empty customerId is invalid by the rule
    that customerId must be a non-empty string, yet for the form with
    customerId "", amount "50" and status "pending" neither action
    returns a validation error. The schema finds no offending field,
    createInvoice issues its INSERT and updateInvoice its UPDATE, both
    take effect on the table, and both end by the redirect. *)
Lemma C2_empty_customerId_counterexample :
  customerId_invalid_by_rule (get "customerId" (form "" "50" "pending"))
  = true
  /\ offending "customerId" (form "" "50" "pending") = false
  /\ passes_validation (form "" "50" "pending") = true
  /\ createInvoice next_id no_fault no_state (form "" "50" "pending")
       sample_world
     = (Throw (NEXT_REDIRECT "/dashboard/invoices"),
        {| invoices :=
             sample_rows
             ++ [ {| row_id := "inv-new"; row_customer_id := "";
                     row_amount := 5000%float; row_status := "pending";
                     row_date := "2024-05-01" |} ];
           now := now sample_world;
           trace :=
             [EvSql (INSERT_INTO_invoices "" 5000%float "pending"
                       "2024-05-01");
              EvRevalidatePath "/dashboard/invoices";
              EvRedirect "/dashboard/invoices"] |})
  /\ issued_statements
       (trace (snd (updateInvoice next_id no_fault "inv-1" no_state
                      (form "" "50" "pending") sample_world)))
     = [UPDATE_invoices "" 5000%float "pending" "inv-1"]
  /\ fst (updateInvoice next_id no_fault "inv-1" no_state
            (form "" "50" "pending") sample_world)
     = Throw (NEXT_REDIRECT "/dashboard/invoices")
  /\ nth_error
       (invoices (snd (updateInvoice next_id no_fault "inv-1" no_state
                         (form "" "50" "pending") sample_world))) 0
     = Some {| row_id := "inv-1"; row_customer_id := "";
               row_amount := 5000%float; row_status := "pending";
               row_date := "2024-01-15" |}.
Proof.
  repeat split.
Qed.

(** C3 (as stated) fails: an empty customerId passes the validation of
    both actions, with no customerId error, and createInvoice goes on to
    insert a row whose customer_id is the empty string. *)
Lemma C3_empty_customerId_counterexample :
  CreateInvoice (raw_fields (form "" "50" "pending"))
  = Zod.SafeParseSuccess
      {| Zod.customerId := ""; Zod.amount := 50%float;
         Zod.status := "pending" |}
  /\ UpdateInvoice (raw_fields (form "" "50" "pending"))
     = Zod.SafeParseSuccess
         {| Zod.customerId := ""; Zod.amount := 50%float;
            Zod.status := "pending" |}
  /\ issued_statements
       (trace (snd (createInvoice next_id no_fault no_state
                      (form "" "50" "pending") sample_world)))
     = [INSERT_INTO_invoices "" 5000%float "pending" "2024-05-01"].
Proof.
  repeat split.
Qed.

(** C3 (as the code has it): the validation step of createInvoice and
    updateInvoice accepts customerId exactly when it is a string, the
    empty string included. When customerId is not a string (the field is
    absent, or holds a file), validation fails with the customerId error
    "Please select a customer"; when it is a string, no customerId error
    is raised. *)
Theorem C3_customerId_must_be_a_string (raw : Zod.RawInvoice) :
  (is_string_entry (Zod.raw_customerId raw) = false ->
   Zod.success (CreateInvoice raw) = false
   /\ Zod.success (UpdateInvoice raw) = false
   /\ at_path ["customerId"] (issues (CreateInvoice raw))
      = [Zod.mkIssue Zod.invalid_type ["customerId"]
           "Please select a customer"]
   /\ at_path ["customerId"] (issues (UpdateInvoice raw))
      = [Zod.mkIssue Zod.invalid_type ["customerId"]
           "Please select a customer"])
  /\ (is_string_entry (Zod.raw_customerId raw) = true ->
      at_path ["customerId"] (issues (CreateInvoice raw)) = []
      /\ at_path ["customerId"] (issues (UpdateInvoice raw)) = []).
Proof.
  destruct raw as [c a s].
  unfold UpdateInvoice, CreateInvoice, Zod.object, FormSchema.customerId,
    FormSchema.amount, FormSchema.status, Zod.string, Zod.coerce_number,
    Zod.enum.
  cbn [Zod.raw_customerId Zod.raw_amount Zod.raw_status].
  split; intros Hc.
  - destruct c as [[c|n]|]; [discriminate Hc| |];
      destruct (PrimFloat.is_nan (Number a));
      destruct s as [[s|n']|];
      try destruct (Zod.includes s _);
      repeat split; reflexivity.
  - destruct c as [[c|n]|]; try discriminate Hc;
      destruct (PrimFloat.is_nan (Number a));
      destruct s as [[s|n']|];
      try destruct (Zod.includes s _);
      repeat split; reflexivity.
Qed.

Lemma C3_customerId_must_be_a_string_witness :
  is_string_entry
    (Zod.raw_customerId
       (raw_fields [("amount", EntryString "50");
                    ("status", EntryString "paid")])) = false
  /\ (Zod.success
        (CreateInvoice
           (raw_fields [("amount", EntryString "50");
                        ("status", EntryString "paid")])) = false
      /\ Zod.success
           (UpdateInvoice
              (raw_fields [("amount", EntryString "50");
                           ("status", EntryString "paid")])) = false
      /\ at_path ["customerId"]
           (issues
              (CreateInvoice
                 (raw_fields [("amount", EntryString "50");
                              ("status", EntryString "paid")])))
         = [Zod.mkIssue Zod.invalid_type ["customerId"]
              "Please select a customer"]
      /\ at_path ["customerId"]
           (issues
              (UpdateInvoice
                 (raw_fields [("amount", EntryString "50");
                              ("status", EntryString "paid")])))
         = [Zod.mkIssue Zod.invalid_type ["customerId"]
              "Please select a customer"]).
Proof.
  split; [reflexivity|].
  apply (proj1 (C3_customerId_must_be_a_string
                  (raw_fields [("amount", EntryString "50");
                               ("status", EntryString "paid")]))).
  reflexivity.
Defined.

(** *** Runs of the three invoice actions, statement by statement *)

Section Runs.

Variable gen_id : list InvoiceRow -> string.
Variable db_fault : SqlStatement -> list InvoiceRow -> option Exn.

Lemma sql_throws st w e :
  db_fault st (invoices w) = Some e ->
  sql gen_id db_fault st w = (Throw e, after_failure st w).
Proof. intros H. unfold sql. rewrite H. reflexivity. Qed.

Lemma sql_returns st w :
  db_fault st (invoices w) = None ->
  sql gen_id db_fault st w = (Return tt, after_success gen_id st [] w).
Proof. intros H. unfold sql. rewrite H. reflexivity. Qed.

Lemma createInvoice_db_failure prevState formData w c a s e :
  CreateInvoice (raw_fields formData)
  = Zod.SafeParseSuccess
      {| Zod.customerId := c; Zod.amount := a; Zod.status := s |} ->
  db_fault (INSERT_INTO_invoices c (a * 100)%float s (split_T_0 (now w)))
    (invoices w) = Some e ->
  createInvoice gen_id db_fault prevState formData w
  = (Return (Some {| errors := None;
                     message :=
                       Some "Database Error: failed to create invoice" |}),
     after_failure
       (INSERT_INTO_invoices c (a * 100)%float s (split_T_0 (now w))) w).
Proof.
  intros E F. unfold createInvoice. rewrite E.
  cbn [Zod.customerId Zod.amount Zod.status].
  unfold bind, try_catch, today.
  rewrite (sql_throws _ _ _ F). reflexivity.
Qed.

Lemma updateInvoice_db_failure id prevState formData w c a s e :
  UpdateInvoice (raw_fields formData)
  = Zod.SafeParseSuccess
      {| Zod.customerId := c; Zod.amount := a; Zod.status := s |} ->
  db_fault (UPDATE_invoices c (a * 100)%float s id) (invoices w) = Some e ->
  updateInvoice gen_id db_fault id prevState formData w
  = (Return (Some {| errors := None;
                     message :=
                       Some "Database error: failed to update invoice" |}),
     after_failure (UPDATE_invoices c (a * 100)%float s id) w).
Proof.
  intros E F. unfold updateInvoice. rewrite E.
  cbn [Zod.customerId Zod.amount Zod.status].
  unfold bind, try_catch.
  rewrite (sql_throws _ _ _ F). reflexivity.
Qed.

Lemma deleteInvoice_db_failure id w e :
  db_fault (DELETE_FROM_invoices id) (invoices w) = Some e ->
  deleteInvoice gen_id db_fault id w
  = (Return (Some {| errors := None;
                     message :=
                       Some "Database error: failed to delete invoice" |}),
     after_failure (DELETE_FROM_invoices id) w).
Proof.
  intros F. unfold deleteInvoice, bind, try_catch.
  rewrite (sql_throws _ _ _ F). reflexivity.
Qed.

Lemma createInvoice_success prevState formData w c a s :
  CreateInvoice (raw_fields formData)
  = Zod.SafeParseSuccess
      {| Zod.customerId := c; Zod.amount := a; Zod.status := s |} ->
  db_fault (INSERT_INTO_invoices c (a * 100)%float s (split_T_0 (now w)))
    (invoices w) = None ->
  createInvoice gen_id db_fault prevState formData w
  = (Throw (NEXT_REDIRECT "/dashboard/invoices"),
     after_success gen_id
       (INSERT_INTO_invoices c (a * 100)%float s (split_T_0 (now w)))
       [EvRevalidatePath "/dashboard/invoices";
        EvRedirect "/dashboard/invoices"] w).
Proof.
  intros E F. unfold createInvoice. rewrite E.
  cbn [Zod.customerId Zod.amount Zod.status].
  unfold bind, try_catch, today.
  rewrite (sql_returns _ _ F).
  unfold after_success, revalidatePath, redirect, emit, bind, throw, ret.
  cbn [invoices now trace]. rewrite <- !app_assoc. reflexivity.
Qed.

Lemma updateInvoice_success id prevState formData w c a s :
  UpdateInvoice (raw_fields formData)
  = Zod.SafeParseSuccess
      {| Zod.customerId := c; Zod.amount := a; Zod.status := s |} ->
  db_fault (UPDATE_invoices c (a * 100)%float s id) (invoices w) = None ->
  updateInvoice gen_id db_fault id prevState formData w
  = (Throw (NEXT_REDIRECT "/dashboard/invoices"),
     after_success gen_id (UPDATE_invoices c (a * 100)%float s id)
       [EvRevalidatePath "/dashboard/invoices";
        EvRedirect "/dashboard/invoices"] w).
Proof.
  intros E F. unfold updateInvoice. rewrite E.
  cbn [Zod.customerId Zod.amount Zod.status].
  unfold bind, try_catch.
  rewrite (sql_returns _ _ F).
  unfold after_success, revalidatePath, redirect, emit, bind, throw, ret.
  cbn [invoices now trace]. rewrite <- !app_assoc. reflexivity.
Qed.

Lemma deleteInvoice_success id w :
  db_fault (DELETE_FROM_invoices id) (invoices w) = None ->
  deleteInvoice gen_id db_fault id w
  = (Return None,
     after_success gen_id (DELETE_FROM_invoices id)
       [EvRevalidatePath "/dashboard/invoices"] w).
Proof.
  intros F. unfold deleteInvoice, bind, try_catch.
  rewrite (sql_returns _ _ F).
  unfold after_success, revalidatePath, emit, ret.
  cbn [invoices now trace]. rewrite <- !app_assoc. reflexivity.
Qed.

End Runs.

(** C4: when its one statement throws, each invoice action returns
    normally with its fixed message (the error thrown by the storage is
    not passed on), having issued that statement and nothing else, and
    the invoices table is as it was. *)
Theorem C4_fixed_message_on_database_failure
    (gen_id : list InvoiceRow -> string)
    (db_fault : SqlStatement -> list InvoiceRow -> option Exn)
    (id : string) (prevState : State) (formData : FormData) (w : World)
    (c : string) (a : Js.number) (s : string) (e : Exn) :
  (CreateInvoice (raw_fields formData)
   = Zod.SafeParseSuccess
       {| Zod.customerId := c; Zod.amount := a; Zod.status := s |} ->
   db_fault (INSERT_INTO_invoices c (a * 100)%float s (split_T_0 (now w)))
     (invoices w) = Some e ->
   createInvoice gen_id db_fault prevState formData w
   = (Return (Some {| errors := None;
                      message :=
                        Some "Database Error: failed to create invoice" |}),
      after_failure
        (INSERT_INTO_invoices c (a * 100)%float s (split_T_0 (now w))) w)
   /\ invoices (snd (createInvoice gen_id db_fault prevState formData w))
      = invoices w)
  /\ (UpdateInvoice (raw_fields formData)
      = Zod.SafeParseSuccess
          {| Zod.customerId := c; Zod.amount := a; Zod.status := s |} ->
      db_fault (UPDATE_invoices c (a * 100)%float s id) (invoices w)
      = Some e ->
      updateInvoice gen_id db_fault id prevState formData w
      = (Return (Some {| errors := None;
                         message :=
                           Some "Database error: failed to update invoice" |}),
         after_failure (UPDATE_invoices c (a * 100)%float s id) w)
      /\ invoices (snd (updateInvoice gen_id db_fault id prevState formData w))
         = invoices w)
  /\ (db_fault (DELETE_FROM_invoices id) (invoices w) = Some e ->
      deleteInvoice gen_id db_fault id w
      = (Return (Some {| errors := None;
                         message :=
                           Some "Database error: failed to delete invoice" |}),
         after_failure (DELETE_FROM_invoices id) w)
      /\ invoices (snd (deleteInvoice gen_id db_fault id w)) = invoices w).
Proof.
  split; [|split].
  - intros E F.
    rewrite (createInvoice_db_failure gen_id db_fault _ _ _ _ _ _ _ E F).
    split; reflexivity.
  - intros E F.
    rewrite (updateInvoice_db_failure gen_id db_fault _ _ _ _ _ _ _ _ E F).
    split; reflexivity.
  - intros F.
    rewrite (deleteInvoice_db_failure gen_id db_fault _ _ _ F).
    split; reflexivity.
Qed.

Lemma C4_fixed_message_on_database_failure_witness :
  (CreateInvoice (raw_fields (form "c1" "50" "pending"))
   = Zod.SafeParseSuccess
       {| Zod.customerId := "c1"; Zod.amount := 50%float;
          Zod.status := "pending" |}
   /\ unreachable
        (INSERT_INTO_invoices "c1" (50 * 100)%float "pending"
           (split_T_0 (now sample_world)))
        (invoices sample_world)
      = Some (DatabaseError "connect ECONNREFUSED")
   /\ unreachable (UPDATE_invoices "c1" (50 * 100)%float "pending" "inv-1")
        (invoices sample_world)
      = Some (DatabaseError "connect ECONNREFUSED")
   /\ unreachable (DELETE_FROM_invoices "inv-1") (invoices sample_world)
      = Some (DatabaseError "connect ECONNREFUSED"))
  /\ fst (createInvoice next_id unreachable no_state
            (form "c1" "50" "pending") sample_world)
     = Return (Some {| errors := None;
                       message :=
                         Some "Database Error: failed to create invoice" |})
  /\ fst (updateInvoice next_id unreachable "inv-1" no_state
            (form "c1" "50" "pending") sample_world)
     = Return (Some {| errors := None;
                       message :=
                         Some "Database error: failed to update invoice" |})
  /\ fst (deleteInvoice next_id unreachable "inv-1" sample_world)
     = Return (Some {| errors := None;
                       message :=
                         Some "Database error: failed to delete invoice" |})
  /\ invoices (snd (createInvoice next_id unreachable no_state
                      (form "c1" "50" "pending") sample_world))
     = sample_rows
  /\ invoices (snd (updateInvoice next_id unreachable "inv-1" no_state
                      (form "c1" "50" "pending") sample_world))
     = sample_rows
  /\ invoices (snd (deleteInvoice next_id unreachable "inv-1" sample_world))
     = sample_rows.
Proof.
  destruct (C4_fixed_message_on_database_failure next_id unreachable "inv-1"
              no_state (form "c1" "50" "pending") sample_world
              "c1" 50%float "pending"
              (DatabaseError "connect ECONNREFUSED"))
    as (Hc & Hu & Hd).
  destruct (Hc eq_refl eq_refl) as [Hc1 Hc2].
  destruct (Hu eq_refl eq_refl) as [Hu1 Hu2].
  destruct (Hd eq_refl) as [Hd1 Hd2].
  split; [repeat split|].
  rewrite Hc1, Hu1, Hd1. repeat split.
Defined.

Section CreateSuccess.

Variable gen_id : list InvoiceRow -> string.
Variable db_fault : SqlStatement -> list InvoiceRow -> option Exn.

Lemma console_logs_app (t u : list Event) :
  console_logs (t ++ u) = console_logs t ++ console_logs u.
Proof. apply filter_app. Qed.

(** Whatever the input and whatever the storage does, createInvoice
    writes nothing to the console: the statements after [redirect] are
    never reached. *)
Lemma createInvoice_never_logs prevState formData w :
  console_logs
    (trace (snd (createInvoice gen_id db_fault prevState formData w)))
  = console_logs (trace w).
Proof.
  unfold createInvoice.
  destruct (CreateInvoice (raw_fields formData)) as [[c a s]|err];
    [|reflexivity].
  cbn [Zod.customerId Zod.amount Zod.status].
  unfold bind, try_catch, today, sql.
  destruct (db_fault _ _); cbn -[console_logs];
    rewrite ?console_logs_app; cbn; rewrite ?app_nil_r; reflexivity.
Qed.

End CreateSuccess.

(** C5: when the INSERT succeeds, createInvoice invalidates the cached
    invoices listing, then redirects to the invoices listing, and ends
    there by the redirect's throw; the logging of rawFormData that
    follows in the source does not run. *)
Theorem C5_revalidate_then_redirect
    (gen_id : list InvoiceRow -> string)
    (db_fault : SqlStatement -> list InvoiceRow -> option Exn)
    (prevState : State) (formData : FormData) (w : World)
    (c : string) (a : Js.number) (s : string) :
  CreateInvoice (raw_fields formData)
  = Zod.SafeParseSuccess
      {| Zod.customerId := c; Zod.amount := a; Zod.status := s |} ->
  db_fault (INSERT_INTO_invoices c (a * 100)%float s (split_T_0 (now w)))
    (invoices w) = None ->
  fst (createInvoice gen_id db_fault prevState formData w)
  = Throw (NEXT_REDIRECT "/dashboard/invoices")
  /\ trace (snd (createInvoice gen_id db_fault prevState formData w))
     = trace w
       ++ [EvSql (INSERT_INTO_invoices c (a * 100)%float s
                    (split_T_0 (now w)));
           EvRevalidatePath "/dashboard/invoices";
           EvRedirect "/dashboard/invoices"]
  /\ console_logs
       (trace (snd (createInvoice gen_id db_fault prevState formData w)))
     = console_logs (trace w).
Proof.
  intros E F.
  rewrite (createInvoice_success gen_id db_fault _ _ _ _ _ _ E F).
  repeat split.
  cbn [snd after_success trace]. rewrite console_logs_app. cbn.
  apply app_nil_r.
Qed.

Lemma C5_revalidate_then_redirect_witness :
  (CreateInvoice (raw_fields (form "c1" "50" "pending"))
   = Zod.SafeParseSuccess
       {| Zod.customerId := "c1"; Zod.amount := 50%float;
          Zod.status := "pending" |}
   /\ no_fault
        (INSERT_INTO_invoices "c1" (50 * 100)%float "pending"
           (split_T_0 (now sample_world)))
        (invoices sample_world) = None)
  /\ fst (createInvoice next_id no_fault no_state
            (form "c1" "50" "pending") sample_world)
     = Throw (NEXT_REDIRECT "/dashboard/invoices")
  /\ trace (snd (createInvoice next_id no_fault no_state
                   (form "c1" "50" "pending") sample_world))
     = trace sample_world
       ++ [EvSql (INSERT_INTO_invoices "c1" (50 * 100)%float "pending"
                    (split_T_0 (now sample_world)));
           EvRevalidatePath "/dashboard/invoices";
           EvRedirect "/dashboard/invoices"]
  /\ console_logs
       (trace (snd (createInvoice next_id no_fault no_state
                      (form "c1" "50" "pending") sample_world)))
     = console_logs (trace sample_world).
Proof.
  split; [split; reflexivity|].
  apply (C5_revalidate_then_redirect next_id no_fault no_state
           (form "c1" "50" "pending") sample_world
           "c1" 50%float "pending"); reflexivity.
Defined.

(** *** What UPDATE and DELETE leave alone *)

Section Frame.

Variable gen_id : list InvoiceRow -> string.

Lemma update_row_at c a s id rows n r :
  nth_error rows n = Some r ->
  nth_error (execute gen_id (UPDATE_invoices c a s id) rows) n
  = Some (if String.eqb (row_id r) id then set_invoice c a s r else r).
Proof.
  intros H. cbn [execute]. rewrite nth_error_map, H. reflexivity.
Qed.

Lemma update_no_match c a s id rows :
  (forall r, In r rows -> row_id r <> id) ->
  execute gen_id (UPDATE_invoices c a s id) rows = rows.
Proof.
  intros H. cbn [execute].
  induction rows as [|r rows IH]; cbn [map]; [reflexivity|].
  rewrite IH by (intros r' Hr'; apply H; right; exact Hr').
  destruct (String.eqb_spec (row_id r) id) as [E|_]; [|reflexivity].
  exfalso. apply (H r); [left; reflexivity|exact E].
Qed.

Lemma delete_no_match id rows :
  (forall r, In r rows -> row_id r <> id) ->
  execute gen_id (DELETE_FROM_invoices id) rows = rows.
Proof.
  intros H. cbn [execute].
  induction rows as [|r rows IH]; cbn [filter]; [reflexivity|].
  destruct (String.eqb_spec (row_id r) id) as [E|_]; cbn [negb].
  - exfalso. apply (H r); [left; reflexivity|exact E].
  - rewrite IH by (intros r' Hr'; apply H; right; exact Hr').
    reflexivity.
Qed.

End Frame.

(** C6: for every validated input, updateInvoice issues exactly one
    statement, the UPDATE of customer_id, amount and status where id is
    the target. Every row stays at its place and keeps its id and its
    date, and a row with another id is unchanged; when no row has the
    target id the table is unchanged. When the UPDATE succeeds, the rows
    with the target id get the three new values and nothing else
    changes, and the action ends by the redirect, with no error result,
    whether or not a row matched. *)
Theorem C6_update_frame
    (gen_id : list InvoiceRow -> string)
    (db_fault : SqlStatement -> list InvoiceRow -> option Exn)
    (id : string) (prevState : State) (formData : FormData) (w : World)
    (c : string) (a : Js.number) (s : string) :
  UpdateInvoice (raw_fields formData)
  = Zod.SafeParseSuccess
      {| Zod.customerId := c; Zod.amount := a; Zod.status := s |} ->
  let run := updateInvoice gen_id db_fault id prevState formData w in
  issued_statements (trace (snd run))
  = issued_statements (trace w) ++ [UPDATE_invoices c (a * 100)%float s id]
  /\ List.length (invoices (snd run)) = List.length (invoices w)
  /\ (forall n r,
        nth_error (invoices w) n = Some r ->
        exists r',
          nth_error (invoices (snd run)) n = Some r'
          /\ row_id r' = row_id r
          /\ row_date r' = row_date r
          /\ (row_id r <> id -> r' = r))
  /\ ((forall r, In r (invoices w) -> row_id r <> id) ->
      invoices (snd run) = invoices w)
  /\ (db_fault (UPDATE_invoices c (a * 100)%float s id) (invoices w) = None ->
      fst run = Throw (NEXT_REDIRECT "/dashboard/invoices")
      /\ invoices (snd run)
         = map (fun r => if String.eqb (row_id r) id
                         then set_invoice c (a * 100)%float s r else r)
             (invoices w)).
Proof.
  intros E run. subst run.
  rewrite (updateInvoice_statement gen_id db_fault _ _ _ _ _ _ _ E).
  split; [reflexivity|].
  destruct (db_fault (UPDATE_invoices c (a * 100)%float s id) (invoices w))
    as [e|] eqn:F.
  - rewrite (updateInvoice_db_failure gen_id db_fault _ _ _ _ _ _ _ _ E F).
    cbn [fst snd after_failure invoices].
    split; [reflexivity|]. split; [|split; [reflexivity|discriminate]].
    intros n r Hn. exists r.
    split; [exact Hn|]. split; [reflexivity|]. split; reflexivity.
  - rewrite (updateInvoice_success gen_id db_fault _ _ _ _ _ _ _ E F).
    cbn [fst snd after_success invoices].
    split; [cbn [execute]; apply length_map|].
    split; [|split; [apply update_no_match|intros _; split; reflexivity]].
    intros n r Hn. rewrite (update_row_at gen_id _ _ _ _ _ _ _ Hn).
    destruct (String.eqb_spec (row_id r) id) as [Eid|Nid].
    + eexists. split; [reflexivity|]. cbn.
      split; [reflexivity|]. split; [reflexivity|].
      intros N; contradiction.
    + exists r. split; [reflexivity|].
      split; [reflexivity|]. split; reflexivity.
Qed.

Lemma C6_update_frame_witness :
  UpdateInvoice (raw_fields (form "c9" "12.34" "paid"))
  = Zod.SafeParseSuccess
      {| Zod.customerId := "c9"; Zod.amount := 12.34%float;
         Zod.status := "paid" |}
  /\ issued_statements
       (trace (snd (updateInvoice next_id no_fault "inv-1" no_state
                      (form "c9" "12.34" "paid") sample_world)))
     = [UPDATE_invoices "c9" 1234%float "paid" "inv-1"]
  /\ fst (updateInvoice next_id no_fault "inv-1" no_state
            (form "c9" "12.34" "paid") sample_world)
     = Throw (NEXT_REDIRECT "/dashboard/invoices")
  /\ invoices (snd (updateInvoice next_id no_fault "inv-1" no_state
                      (form "c9" "12.34" "paid") sample_world))
     = [ {| row_id := "inv-1"; row_customer_id := "c9";
            row_amount := 1234%float; row_status := "paid";
            row_date := "2024-01-15" |};
         {| row_id := "inv-2"; row_customer_id := "c2";
            row_amount := 1234%float; row_status := "paid";
            row_date := "2024-02-20" |} ].
Proof.
  split; [reflexivity|].
  destruct (C6_update_frame next_id no_fault "inv-1" no_state
              (form "c9" "12.34" "paid") sample_world
              "c9" 12.34%float "paid" eq_refl)
    as (H1 & _ & _ & _ & H5).
  destruct (H5 eq_refl) as [H6 H7].
  rewrite H1, H6, H7. repeat split.
Defined.

(** C7: deleteInvoice takes the id alone and validates nothing. For
    every id it issues exactly one statement, the DELETE where id is the
    given one. When the DELETE succeeds it then invalidates the cached
    invoices listing and returns normally, with no result value and no
    redirect; the rows with another id stay, in order, and when no row
    has the id the table is unchanged, which is a success like any
    other. *)
Theorem C7_delete_one_statement_no_redirect
    (gen_id : list InvoiceRow -> string)
    (db_fault : SqlStatement -> list InvoiceRow -> option Exn)
    (id : string) (w : World) :
  issued_statements (trace (snd (deleteInvoice gen_id db_fault id w)))
  = issued_statements (trace w) ++ [DELETE_FROM_invoices id]
  /\ redirects (trace (snd (deleteInvoice gen_id db_fault id w)))
     = redirects (trace w)
  /\ (db_fault (DELETE_FROM_invoices id) (invoices w) = None ->
      fst (deleteInvoice gen_id db_fault id w) = Return None
      /\ trace (snd (deleteInvoice gen_id db_fault id w))
         = trace w ++ [EvSql (DELETE_FROM_invoices id);
                       EvRevalidatePath "/dashboard/invoices"]
      /\ invoices (snd (deleteInvoice gen_id db_fault id w))
         = filter (fun r => negb (String.eqb (row_id r) id)) (invoices w)
      /\ ((forall r, In r (invoices w) -> row_id r <> id) ->
          invoices (snd (deleteInvoice gen_id db_fault id w)) = invoices w)).
Proof.
  destruct (db_fault (DELETE_FROM_invoices id) (invoices w)) as [e|] eqn:F.
  - rewrite (deleteInvoice_db_failure gen_id db_fault _ _ _ F).
    cbn [snd after_failure trace].
    split; [rewrite issued_statements_app; reflexivity|].
    split; [|discriminate].
    unfold redirects. rewrite filter_app. cbn. apply app_nil_r.
  - rewrite (deleteInvoice_success gen_id db_fault _ _ F).
    cbn [fst snd after_success trace invoices].
    split; [rewrite issued_statements_app; reflexivity|].
    split; [unfold redirects; rewrite filter_app; cbn; apply app_nil_r|].
    intros _. repeat split.
    apply (delete_no_match gen_id).
Qed.

Lemma C7_delete_one_statement_no_redirect_witness :
  no_fault (DELETE_FROM_invoices "inv-404") (invoices sample_world) = None
  /\ fst (deleteInvoice next_id no_fault "inv-404" sample_world)
     = Return None
  /\ trace (snd (deleteInvoice next_id no_fault "inv-404" sample_world))
     = [EvSql (DELETE_FROM_invoices "inv-404");
        EvRevalidatePath "/dashboard/invoices"]
  /\ invoices (snd (deleteInvoice next_id no_fault "inv-404" sample_world))
     = sample_rows.
Proof.
  split; [reflexivity|].
  destruct (C7_delete_one_statement_no_redirect next_id no_fault
              "inv-404" sample_world) as (_ & _ & H).
  destruct (H eq_refl) as (H1 & H2 & H3 & _).
  rewrite H1, H2, H3. repeat split.
Defined.

(** C8: authenticate returns "Invalid credentials." when signIn throws
    an AuthError of type "CredentialsSignin", returns "Something went
    wrong." when it throws an AuthError of any other type, and throws
    again, unchanged, anything that is not an AuthError. The world is
    the one signIn left. *)
Theorem C8_authenticate_error_mapping
    (signIn : string -> FormData -> Action unit)
    (prevState : option string) (formData : FormData) (w w' : World) :
  (signIn "credentials" formData w
   = (Throw (AuthError "CredentialsSignin"), w') ->
   authenticate signIn prevState formData w
   = (Return (Some "Invalid credentials."), w'))
  /\ (forall type,
        type <> "CredentialsSignin" ->
        signIn "credentials" formData w = (Throw (AuthError type), w') ->
        authenticate signIn prevState formData w
        = (Return (Some "Something went wrong."), w'))
  /\ (forall e,
        is_AuthError e = false ->
        signIn "credentials" formData w = (Throw e, w') ->
        authenticate signIn prevState formData w = (Throw e, w')).
Proof.
  unfold authenticate, try_catch, bind.
  split; [|split].
  - intros H. rewrite H. reflexivity.
  - intros type Hne H. rewrite H.
    destruct (String.eqb_spec type "CredentialsSignin") as [E|_];
      [contradiction|reflexivity].
  - intros e He H. rewrite H. destruct e; try reflexivity. discriminate He.
Qed.

Lemma C8_authenticate_error_mapping_witness :
  authenticate (signIn_rejects (AuthError "CredentialsSignin")) None []
    sample_world
  = (Return (Some "Invalid credentials."), sample_world)
  /\ authenticate (signIn_rejects (AuthError "CallbackRouteError")) None []
       sample_world
     = (Return (Some "Something went wrong."), sample_world)
  /\ authenticate (signIn_rejects (OtherError "fetch failed")) None []
       sample_world
     = (Throw (OtherError "fetch failed"), sample_world).
Proof.
  split; [|split].
  - apply (proj1 (C8_authenticate_error_mapping
                    (signIn_rejects (AuthError "CredentialsSignin"))
                    None [] sample_world sample_world)).
    reflexivity.
  - apply (proj1 (proj2 (C8_authenticate_error_mapping
                           (signIn_rejects (AuthError "CallbackRouteError"))
                           None [] sample_world sample_world))
             "CallbackRouteError").
    + discriminate.
    + reflexivity.
  - apply (proj2 (proj2 (C8_authenticate_error_mapping
                           (signIn_rejects (OtherError "fetch failed"))
                           None [] sample_world sample_world))
             (OtherError "fetch failed")); reflexivity.
Defined.

(** Every validation failure hands back the formatted error tree, in
    which a field that failed maps to an object, not to a list: the
    result never has the declared type of [State.errors] with respect to
    the fields that failed. *)
Lemma validation_failure_errors_shape
    (gen_id : list InvoiceRow -> string)
    (db_fault : SqlStatement -> list InvoiceRow -> option Exn)
    (prevState : State) (formData : FormData) (w : World) :
  passes_validation formData = false ->
  exists errs,
    fst (createInvoice gen_id db_fault prevState formData w)
    = Return (Some {| errors := Some errs;
                      message := Some "Validation failed" |})
    /\ errors_well_typed errs = false.
Proof.
  unfold passes_validation, createInvoice, CreateInvoice,
    Zod.object, raw_fields, FormSchema.customerId, FormSchema.amount,
    FormSchema.status, Zod.string, Zod.coerce_number, Zod.enum.
  cbn [Zod.raw_customerId Zod.raw_amount Zod.raw_status].
  destruct (get "customerId" formData) as [[c|n]|];
  destruct (PrimFloat.is_nan (Number (get "amount" formData)));
  destruct (get "status" formData) as [[s|n']|];
  try destruct (Zod.includes s _);
  intros H; try discriminate H;
  eexists; split; reflexivity.
Qed.

(** C9: for the form with no customerId, the amount "abc" and the status
    "archived", createInvoice and updateInvoice return as errors the
    tree that [format] builds: a top-level [_errors] list, and for each
    field an object holding its own [_errors] list. The customerId entry
    is an object, not a list of strings, so the result does not have the
    declared [State] type. *)
Theorem C9_errors_are_nested_format_tree :
  createInvoice next_id no_fault no_state
    [("amount", EntryString "abc"); ("status", EntryString "archived")]
    sample_world
  = (Return
       (Some
          {| errors :=
               Some
                 (JObject
                    [("_errors", JArray []);
                     ("customerId",
                      JObject
                        [("_errors",
                          JArray [JString "Please select a customer"])]);
                     ("amount",
                      JObject
                        [("_errors",
                          JArray [JString "Expected number, received nan"])]);
                     ("status",
                      JObject
                        [("_errors",
                          JArray
                            [JString
                               "Invalid enum value. Expected 'pending' | 'paid', received 'archived'"])])]);
             message := Some "Validation failed" |}),
     sample_world)
  /\ updateInvoice next_id no_fault "inv-1" no_state
       [("amount", EntryString "abc"); ("status", EntryString "archived")]
       sample_world
     = createInvoice next_id no_fault no_state
         [("amount", EntryString "abc"); ("status", EntryString "archived")]
         sample_world
  /\ match fst (createInvoice next_id no_fault no_state
                  [("amount", EntryString "abc");
                   ("status", EntryString "archived")]
                  sample_world) with
     | Return (Some st) => State_well_typed st
     | _ => true
     end = false.
Proof.
  repeat split.
Qed.

(** C10: deleteInvoice invalidates the cache only once the DELETE has
    succeeded. When the DELETE throws, it returns its error message and
    the trace holds the statement alone, with no invalidation; when the
    DELETE succeeds, the invalidation comes right after the statement. *)
Theorem C10_delete_revalidates_only_on_success
    (gen_id : list InvoiceRow -> string)
    (db_fault : SqlStatement -> list InvoiceRow -> option Exn)
    (id : string) (w : World) :
  (forall e,
      db_fault (DELETE_FROM_invoices id) (invoices w) = Some e ->
      fst (deleteInvoice gen_id db_fault id w)
      = Return (Some {| errors := None;
                        message :=
                          Some "Database error: failed to delete invoice" |})
      /\ trace (snd (deleteInvoice gen_id db_fault id w))
         = trace w ++ [EvSql (DELETE_FROM_invoices id)]
      /\ revalidations (trace (snd (deleteInvoice gen_id db_fault id w)))
         = revalidations (trace w))
  /\ (db_fault (DELETE_FROM_invoices id) (invoices w) = None ->
      trace (snd (deleteInvoice gen_id db_fault id w))
      = trace w ++ [EvSql (DELETE_FROM_invoices id);
                    EvRevalidatePath "/dashboard/invoices"]).
Proof.
  split.
  - intros e F.
    rewrite (deleteInvoice_db_failure gen_id db_fault _ _ _ F).
    cbn [fst snd after_failure trace]. repeat split.
    unfold revalidations. rewrite filter_app. cbn. apply app_nil_r.
  - intros F.
    rewrite (deleteInvoice_success gen_id db_fault _ _ F). reflexivity.
Qed.

Lemma C10_delete_revalidates_only_on_success_witness :
  unreachable (DELETE_FROM_invoices "inv-1") (invoices sample_world)
  = Some (DatabaseError "connect ECONNREFUSED")
  /\ fst (deleteInvoice next_id unreachable "inv-1" sample_world)
     = Return (Some {| errors := None;
                       message :=
                         Some "Database error: failed to delete invoice" |})
  /\ trace (snd (deleteInvoice next_id unreachable "inv-1" sample_world))
     = trace sample_world ++ [EvSql (DELETE_FROM_invoices "inv-1")]
  /\ revalidations
       (trace (snd (deleteInvoice next_id unreachable "inv-1" sample_world)))
     = revalidations (trace sample_world).
Proof.
  split; [reflexivity|].
  apply (proj1 (C10_delete_revalidates_only_on_success next_id unreachable
                  "inv-1" sample_world)
           (DatabaseError "connect ECONNREFUSED")).
  reflexivity.
Defined.


(* ================================================================== *)
(** ** Further properties of the actions *)
(* ================================================================== *)

Lemma includes_pending_paid (s : string) :
  Zod.includes s ["pending"; "paid"]
  = (String.eqb s "pending" || String.eqb s "paid")%bool.
Proof.
  unfold Zod.includes. cbn [existsb]. rewrite orb_false_r. reflexivity.
Qed.

(** X1: the validation step of the invoice actions succeeds exactly when
    no field offends: customerId is a string, the amount coerces to a
    number other than NaN, and status is the string "pending" or
    "paid". *)
Theorem X1_validation_passes_iff_no_field_offends (formData : FormData) :
  passes_validation formData
  = (negb (offending "customerId" formData)
     && negb (offending "amount" formData)
     && negb (offending "status" formData))%bool
  /\ Zod.success (UpdateInvoice (raw_fields formData))
     = passes_validation formData.
Proof.
  split; [|reflexivity].
  unfold passes_validation, CreateInvoice, Zod.object, raw_fields,
    FormSchema.customerId, FormSchema.amount, FormSchema.status,
    Zod.string, Zod.coerce_number, Zod.enum, offending.
  cbn [Zod.raw_customerId Zod.raw_amount Zod.raw_status String.eqb
       Ascii.eqb Bool.eqb].
  destruct (get "customerId" formData) as [[c|n]|];
  destruct (PrimFloat.is_nan (Number (get "amount" formData)));
  destruct (get "status" formData) as [[s|n']|];
  try rewrite includes_pending_paid;
  try (destruct (String.eqb s "pending"); destruct (String.eqb s "paid"));
  reflexivity.
Qed.

(** X2: a successful validation hands on the submitted customerId and
    status strings as they are (nothing is trimmed or normalised), the
    status being "pending" or "paid", and as amount the number
    [Number] gives for the amount field. *)
Theorem X2_validated_data_is_the_input (formData : FormData) :
  passes_validation formData = true ->
  exists c s,
    get "customerId" formData = Some (EntryString c)
    /\ get "status" formData = Some (EntryString s)
    /\ (s = "pending" \/ s = "paid")
    /\ PrimFloat.is_nan (Number (get "amount" formData)) = false
    /\ CreateInvoice (raw_fields formData)
       = Zod.SafeParseSuccess
           {| Zod.customerId := c;
              Zod.amount := Number (get "amount" formData);
              Zod.status := s |}
    /\ UpdateInvoice (raw_fields formData)
       = CreateInvoice (raw_fields formData).
Proof.
  unfold passes_validation, UpdateInvoice, CreateInvoice, Zod.object,
    raw_fields, FormSchema.customerId, FormSchema.amount, FormSchema.status,
    Zod.string, Zod.coerce_number, Zod.enum.
  cbn [Zod.raw_customerId Zod.raw_amount Zod.raw_status].
  destruct (get "customerId" formData) as [[c|n]|];
  destruct (PrimFloat.is_nan (Number (get "amount" formData)));
  destruct (get "status" formData) as [[s|n']|];
  try rewrite includes_pending_paid;
  try (destruct (String.eqb_spec s "pending");
       destruct (String.eqb_spec s "paid"));
  cbn [orb]; intros H; try discriminate H;
  exists c, s; repeat split; auto.
Qed.

Lemma X2_validated_data_is_the_input_witness :
  passes_validation (form " c1 " "12.34" "paid") = true
  /\ exists c s,
       get "customerId" (form " c1 " "12.34" "paid") = Some (EntryString c)
       /\ get "status" (form " c1 " "12.34" "paid") = Some (EntryString s)
       /\ (s = "pending" \/ s = "paid")
       /\ PrimFloat.is_nan (Number (get "amount" (form " c1 " "12.34" "paid")))
          = false
       /\ CreateInvoice (raw_fields (form " c1 " "12.34" "paid"))
          = Zod.SafeParseSuccess
              {| Zod.customerId := c;
                 Zod.amount :=
                   Number (get "amount" (form " c1 " "12.34" "paid"));
                 Zod.status := s |}
       /\ UpdateInvoice (raw_fields (form " c1 " "12.34" "paid"))
          = CreateInvoice (raw_fields (form " c1 " "12.34" "paid")).
Proof.
  split; [reflexivity|].
  apply (X2_validated_data_is_the_input (form " c1 " "12.34" "paid")).
  reflexivity.
Defined.

(** X3: the error tree of a validation failure has an entry for a
    field exactly when that field offends, and the entry carries one
    message: "Please select a customer" for a customerId that is not a
    string; "Expected number, received nan" for an amount that coerces to
    NaN; "Please select invoice status" for a status that is not a
    string, and the enum message quoting the received value for a string
    that is neither "pending" nor "paid". The list at the root of the
    tree is always empty. *)
Theorem X3_one_message_per_offending_field
    (gen_id : list InvoiceRow -> string)
    (db_fault : SqlStatement -> list InvoiceRow -> option Exn)
    (id : string) (prevState : State) (formData : FormData) (w : World) :
  (passes_validation formData = false ->
   createInvoice gen_id db_fault prevState formData w
   = (Return (Some {| errors := Some (validation_errors formData);
                      message := Some "Validation failed" |}), w)
   /\ updateInvoice gen_id db_fault id prevState formData w
      = (Return (Some {| errors := Some (validation_errors formData);
                         message := Some "Validation failed" |}), w))
  /\ root_errors (validation_errors formData) = Some []
  /\ field_errors "customerId" (validation_errors formData)
     = (if is_string_entry (get "customerId" formData) then None
        else Some [JString "Please select a customer"])
  /\ field_errors "amount" (validation_errors formData)
     = (if PrimFloat.is_nan (Number (get "amount" formData))
        then Some [JString "Expected number, received nan"]
        else None)
  /\ field_errors "status" (validation_errors formData)
     = match get "status" formData with
       | Some (EntryString s) =>
           if (String.eqb s "pending" || String.eqb s "paid")%bool then None
           else Some [JString
                        ("Invalid enum value. Expected 'pending' | 'paid', received '"
                         ++ s ++ "'")%string]
       | _ => Some [JString "Please select invoice status"]
       end.
Proof.
  unfold validation_errors, passes_validation, createInvoice, updateInvoice,
    UpdateInvoice, CreateInvoice, Zod.object,
    raw_fields, FormSchema.customerId, FormSchema.amount, FormSchema.status,
    Zod.string, Zod.coerce_number, Zod.enum.
  cbn [Zod.raw_customerId Zod.raw_amount Zod.raw_status].
  destruct (get "customerId" formData) as [[c|n]|];
  destruct (PrimFloat.is_nan (Number (get "amount" formData)));
  destruct (get "status" formData) as [[s|n']|];
  try rewrite includes_pending_paid;
  try (destruct (String.eqb s "pending"); destruct (String.eqb s "paid"));
  cbn [orb is_string_entry];
  (split; [intros H; try discriminate H; split; reflexivity|]);
  repeat split.
Qed.

Lemma X3_one_message_per_offending_field_witness :
  passes_validation
    [("customerId", EntryString "c1"); ("amount", EntryString "12px");
     ("status", EntryString "Paid")] = false
  /\ createInvoice next_id no_fault no_state
       [("customerId", EntryString "c1"); ("amount", EntryString "12px");
        ("status", EntryString "Paid")] sample_world
     = (Return
          (Some {| errors :=
                     Some (validation_errors
                             [("customerId", EntryString "c1");
                              ("amount", EntryString "12px");
                              ("status", EntryString "Paid")]);
                   message := Some "Validation failed" |}), sample_world)
  /\ updateInvoice next_id no_fault "inv-1" no_state
       [("customerId", EntryString "c1"); ("amount", EntryString "12px");
        ("status", EntryString "Paid")] sample_world
     = (Return
          (Some {| errors :=
                     Some (validation_errors
                             [("customerId", EntryString "c1");
                              ("amount", EntryString "12px");
                              ("status", EntryString "Paid")]);
                   message := Some "Validation failed" |}), sample_world).
Proof.
  split; [reflexivity|].
  apply (proj1 (X3_one_message_per_offending_field next_id no_fault "inv-1"
                  no_state
                  [("customerId", EntryString "c1");
                   ("amount", EntryString "12px");
                   ("status", EntryString "Paid")] sample_world)).
  reflexivity.
Defined.

(** *** Blank amounts and the date *)

Lemma trim_start_blank (l : list ascii) :
  forallb Js.is_whitespace l = true -> Js.trim_start l = [].
Proof.
  induction l as [|c l IH]; cbn [forallb Js.trim_start]; [reflexivity|].
  destruct (Js.is_whitespace c); cbn [andb]; [exact IH|discriminate].
Qed.

Lemma StringToNumber_blank (s : string) :
  blank s = true -> Js.StringToNumber s = 0%float.
Proof.
  unfold blank, Js.StringToNumber, Js.trim. intros H.
  rewrite (trim_start_blank _ H). reflexivity.
Qed.

(** X4: an amount field that is absent, empty or made of whitespace only
    does not fail validation: it coerces to 0, and when the other fields
    are valid both actions bind the amount 0 in their statement. *)
Theorem X4_blank_amount_is_zero
    (gen_id : list InvoiceRow -> string)
    (db_fault : SqlStatement -> list InvoiceRow -> option Exn)
    (id : string) (prevState : State) (formData : FormData) (w : World) :
  blank_amount formData = true ->
  Number (get "amount" formData) = 0%float
  /\ offending "amount" formData = false
  /\ (passes_validation formData = true ->
      exists c s,
        issued_statements
          (trace (snd (createInvoice gen_id db_fault prevState formData w)))
        = issued_statements (trace w)
          ++ [INSERT_INTO_invoices c 0%float s (split_T_0 (now w))]
        /\ issued_statements
             (trace (snd (updateInvoice gen_id db_fault id prevState
                            formData w)))
           = issued_statements (trace w) ++ [UPDATE_invoices c 0%float s id]).
Proof.
  intros Hb.
  assert (Hn : Number (get "amount" formData) = 0%float).
  { unfold blank_amount in Hb. unfold Number.
    destruct (get "amount" formData) as [[s|n]|];
      [apply StringToNumber_blank; exact Hb|discriminate Hb|reflexivity]. }
  split; [exact Hn|]. split.
  - unfold offending. cbn [String.eqb Ascii.eqb Bool.eqb]. rewrite Hn.
    reflexivity.
  - intros Hv. destruct (validated_amount formData Hv) as (c & s & E).
    rewrite Hn in E. exists c, s. split.
    + rewrite (createInvoice_statement gen_id db_fault _ _ _ _ _ _ E).
      reflexivity.
    + rewrite (updateInvoice_statement gen_id db_fault _ _ _ _ _ _ _ E).
      reflexivity.
Qed.

Lemma X4_blank_amount_is_zero_witness :
  blank_amount (form "c1" "   " "paid") = true
  /\ Number (get "amount" (form "c1" "   " "paid")) = 0%float
  /\ offending "amount" (form "c1" "   " "paid") = false
  /\ (passes_validation (form "c1" "   " "paid") = true ->
      exists c s,
        issued_statements
          (trace (snd (createInvoice next_id no_fault no_state
                         (form "c1" "   " "paid") sample_world)))
        = issued_statements (trace sample_world)
          ++ [INSERT_INTO_invoices c 0%float s
                (split_T_0 (now sample_world))]
        /\ issued_statements
             (trace (snd (updateInvoice next_id no_fault "inv-1" no_state
                            (form "c1" "   " "paid") sample_world)))
           = issued_statements (trace sample_world)
             ++ [UPDATE_invoices c 0%float s "inv-1"]).
Proof.
  split; [reflexivity|].
  apply (X4_blank_amount_is_zero next_id no_fault "inv-1" no_state
           (form "c1" "   " "paid") sample_world).
  reflexivity.
Defined.

Lemma split_T_0_prefix (d rest : string) :
  no_T d = true -> split_T_0 (d ++ String "T" rest)%string = d.
Proof.
  induction d as [|c d IH]; cbn [no_T String.append split_T_0].
  - intros _. reflexivity.
  - destruct (Ascii.eqb c "T"); cbn [negb andb]; [discriminate|].
    intros H. rewrite (IH H). reflexivity.
Qed.

Lemma split_T_0_no_T (s : string) : no_T s = true -> split_T_0 s = s.
Proof.
  induction s as [|c s IH]; cbn [no_T split_T_0]; [reflexivity|].
  destruct (Ascii.eqb c "T"); cbn [negb andb]; [discriminate|].
  intros H. rewrite (IH H). reflexivity.
Qed.

Lemma split_T_0_has_no_T (s : string) : no_T (split_T_0 s) = true.
Proof.
  induction s as [|c s IH]; cbn [split_T_0]; [reflexivity|].
  destruct (Ascii.eqb c "T") eqn:E; [reflexivity|].
  cbn [no_T]. rewrite E, IH. reflexivity.
Qed.

(** X5: the date createInvoice binds is the part of the current ISO
    timestamp before its first T: for a clock reading d ++ "T" ++ rest
    with no T in d, the INSERT carries the date d. The date bound never
    contains a T, whatever the clock reads. *)
Theorem X5_date_is_the_timestamp_before_T
    (gen_id : list InvoiceRow -> string)
    (db_fault : SqlStatement -> list InvoiceRow -> option Exn)
    (prevState : State) (formData : FormData) (w : World)
    (c : string) (a : Js.number) (s d rest : string) :
  CreateInvoice (raw_fields formData)
  = Zod.SafeParseSuccess
      {| Zod.customerId := c; Zod.amount := a; Zod.status := s |} ->
  now w = (d ++ String "T" rest)%string ->
  no_T d = true ->
  issued_statements
    (trace (snd (createInvoice gen_id db_fault prevState formData w)))
  = issued_statements (trace w)
    ++ [INSERT_INTO_invoices c (a * 100)%float s d]
  /\ forall clock, no_T (split_T_0 clock) = true.
Proof.
  intros E Hnow Hd. split; [|apply split_T_0_has_no_T].
  rewrite (createInvoice_statement gen_id db_fault _ _ _ _ _ _ E).
  rewrite Hnow, (split_T_0_prefix _ _ Hd). reflexivity.
Qed.

Lemma X5_date_is_the_timestamp_before_T_witness :
  (CreateInvoice (raw_fields (form "c1" "50" "pending"))
   = Zod.SafeParseSuccess
       {| Zod.customerId := "c1"; Zod.amount := 50%float;
          Zod.status := "pending" |}
   /\ now sample_world = ("2024-05-01" ++ String "T" "10:00:00.000Z")%string
   /\ no_T "2024-05-01" = true)
  /\ issued_statements
       (trace (snd (createInvoice next_id no_fault no_state
                      (form "c1" "50" "pending") sample_world)))
     = issued_statements (trace sample_world)
       ++ [INSERT_INTO_invoices "c1" (50 * 100)%float "pending" "2024-05-01"]
  /\ forall clock, no_T (split_T_0 clock) = true.
Proof.
  split; [repeat split|].
  apply (X5_date_is_the_timestamp_before_T next_id no_fault no_state
           (form "c1" "50" "pending") sample_world
           "c1" 50%float "pending" "2024-05-01" "10:00:00.000Z");
    reflexivity.
Defined.

(** *** The table across runs *)

(** A status that passed validation is one of the two enum values. *)
Lemma validated_status raw c a s :
  CreateInvoice raw
  = Zod.SafeParseSuccess
      {| Zod.customerId := c; Zod.amount := a; Zod.status := s |} ->
  s = "pending" \/ s = "paid".
Proof.
  destruct raw as [rc ra rs].
  unfold CreateInvoice, Zod.object, FormSchema.customerId,
    FormSchema.amount, FormSchema.status, Zod.string, Zod.coerce_number,
    Zod.enum.
  cbn [Zod.raw_customerId Zod.raw_amount Zod.raw_status].
  destruct rc as [[c'|n]|];
  destruct (PrimFloat.is_nan (Number ra));
  destruct rs as [[s'|n']|];
  try rewrite includes_pending_paid;
  try (destruct (String.eqb_spec s' "pending");
       destruct (String.eqb_spec s' "paid"));
  cbn [orb]; intros H; try discriminate H;
  injection H as _ _ <-; auto.
Qed.

Section Table.

Variable gen_id : list InvoiceRow -> string.
Variable db_fault : SqlStatement -> list InvoiceRow -> option Exn.

(** The run of createInvoice, case by case. *)
Lemma createInvoice_cases prevState formData w :
  (exists c a s,
      CreateInvoice (raw_fields formData)
      = Zod.SafeParseSuccess
          {| Zod.customerId := c; Zod.amount := a; Zod.status := s |}
      /\ (s = "pending" \/ s = "paid")
      /\ db_fault
           (INSERT_INTO_invoices c (a * 100)%float s (split_T_0 (now w)))
           (invoices w) = None
      /\ createInvoice gen_id db_fault prevState formData w
         = (Throw (NEXT_REDIRECT "/dashboard/invoices"),
            after_success gen_id
              (INSERT_INTO_invoices c (a * 100)%float s (split_T_0 (now w)))
              [EvRevalidatePath "/dashboard/invoices";
               EvRedirect "/dashboard/invoices"] w))
  \/ (exists st,
         createInvoice gen_id db_fault prevState formData w
         = (Return (Some {| errors := None;
                            message :=
                              Some "Database Error: failed to create invoice"
                         |}),
            after_failure st w))
  \/ (exists errs,
         createInvoice gen_id db_fault prevState formData w
         = (Return (Some {| errors := Some errs;
                            message := Some "Validation failed" |}), w)).
Proof.
  destruct (CreateInvoice (raw_fields formData)) as [[c a s]|err] eqn:E.
  - destruct (db_fault
                (INSERT_INTO_invoices c (a * 100)%float s (split_T_0 (now w)))
                (invoices w)) as [e|] eqn:F.
    + right; left. eexists.
      apply (createInvoice_db_failure gen_id db_fault _ _ _ _ _ _ _ E F).
    + left. exists c, a, s. split; [reflexivity|]. split.
      * apply (validated_status _ _ _ _ E).
      * split; [exact F|].
        apply (createInvoice_success gen_id db_fault _ _ _ _ _ _ E F).
  - right; right. exists (Zod.format err).
    unfold createInvoice. rewrite E. reflexivity.
Qed.

(** The run of updateInvoice, case by case. *)
Lemma updateInvoice_cases id prevState formData w :
  (exists c a s,
      UpdateInvoice (raw_fields formData)
      = Zod.SafeParseSuccess
          {| Zod.customerId := c; Zod.amount := a; Zod.status := s |}
      /\ (s = "pending" \/ s = "paid")
      /\ db_fault (UPDATE_invoices c (a * 100)%float s id) (invoices w)
         = None
      /\ updateInvoice gen_id db_fault id prevState formData w
         = (Throw (NEXT_REDIRECT "/dashboard/invoices"),
            after_success gen_id (UPDATE_invoices c (a * 100)%float s id)
              [EvRevalidatePath "/dashboard/invoices";
               EvRedirect "/dashboard/invoices"] w))
  \/ (exists st,
         updateInvoice gen_id db_fault id prevState formData w
         = (Return (Some {| errors := None;
                            message :=
                              Some "Database error: failed to update invoice"
                         |}),
            after_failure st w))
  \/ (exists errs,
         updateInvoice gen_id db_fault id prevState formData w
         = (Return (Some {| errors := Some errs;
                            message := Some "Validation failed" |}), w)).
Proof.
  destruct (UpdateInvoice (raw_fields formData)) as [[c a s]|err] eqn:E.
  - destruct (db_fault (UPDATE_invoices c (a * 100)%float s id) (invoices w))
      as [e|] eqn:F.
    + right; left. eexists.
      apply (updateInvoice_db_failure gen_id db_fault _ _ _ _ _ _ _ _ E F).
    + left. exists c, a, s. split; [reflexivity|]. split.
      * apply (validated_status _ _ _ _ E).
      * split; [exact F|].
        apply (updateInvoice_success gen_id db_fault _ _ _ _ _ _ _ E F).
  - right; right. exists (Zod.format err).
    unfold updateInvoice. rewrite E. reflexivity.
Qed.

Lemma filter_after_failure (p : Event -> bool) st w :
  p (EvSql st) = false ->
  filter p (trace (after_failure st w)) = filter p (trace w).
Proof.
  intros H. cbn [after_failure trace]. rewrite filter_app. cbn [filter].
  rewrite H. apply app_nil_r.
Qed.

Lemma update_twice c1 a1 s1 c2 a2 s2 id rows :
  execute gen_id (UPDATE_invoices c2 a2 s2 id)
    (execute gen_id (UPDATE_invoices c1 a1 s1 id) rows)
  = execute gen_id (UPDATE_invoices c2 a2 s2 id) rows.
Proof.
  cbn [execute]. rewrite map_map. apply map_ext. intros r.
  destruct (String.eqb (row_id r) id) eqn:E.
  - cbn [set_invoice row_id]. rewrite E. reflexivity.
  - rewrite E. reflexivity.
Qed.

Lemma delete_removes_id id rows :
  has_id id (execute gen_id (DELETE_FROM_invoices id) rows) = false.
Proof.
  cbn [execute]. unfold has_id.
  induction rows as [|r rows IH]; cbn [filter]; [reflexivity|].
  destruct (String.eqb (row_id r) id) eqn:E; cbn [negb existsb].
  - exact IH.
  - rewrite E, IH. reflexivity.
Qed.

Lemma no_id_no_match id rows :
  has_id id rows = false -> forall r, In r rows -> row_id r <> id.
Proof.
  unfold has_id. intros H r Hr Eid.
  assert (existsb (fun r => String.eqb (row_id r) id) rows = true).
  { apply existsb_exists. exists r. split; [exact Hr|].
    apply String.eqb_eq. exact Eid. }
  congruence.
Qed.

Lemma delete_after_insert c a s d rows :
  has_id (gen_id rows) rows = false ->
  execute gen_id (DELETE_FROM_invoices (gen_id rows))
    (execute gen_id (INSERT_INTO_invoices c a s d) rows)
  = rows.
Proof.
  intros H. cbn [execute]. rewrite filter_app. cbn [filter row_id].
  rewrite String.eqb_refl. cbn [negb]. rewrite app_nil_r.
  apply (delete_no_match gen_id). apply no_id_no_match. exact H.
Qed.

Lemma execute_keeps_valid_status st rows :
  match st with
  | INSERT_INTO_invoices _ _ s _ | UPDATE_invoices _ _ s _ =>
      s = "pending" \/ s = "paid"
  | DELETE_FROM_invoices _ => True
  end ->
  forallb valid_status rows = true ->
  forallb valid_status (execute gen_id st rows) = true.
Proof.
  intros Hs H. destruct st as [c a s d|c a s i|i]; cbn [execute].
  - rewrite forallb_app, H. cbn [forallb andb]. unfold valid_status.
    cbn [row_status]. destruct Hs as [-> | ->]; reflexivity.
  - rewrite forallb_forall in *. intros r' Hr'.
    apply in_map_iff in Hr'. destruct Hr' as (r & <- & Hr).
    destruct (String.eqb (row_id r) i); [|apply H; exact Hr].
    unfold valid_status. cbn [set_invoice row_status].
    destruct Hs as [-> | ->]; reflexivity.
  - rewrite forallb_forall in *. intros r Hr.
    apply filter_In in Hr. apply H. apply Hr.
Qed.

End Table.

(** X6: when validation passes and the INSERT succeeds, createInvoice
    adds exactly one row, at the end of the table: it has the id the
    database assigns, the submitted customerId and status, the amount
    times 100 and today's date; every row that was there stays at its
    place, unchanged. *)
Theorem X6_create_appends_one_row
    (gen_id : list InvoiceRow -> string)
    (db_fault : SqlStatement -> list InvoiceRow -> option Exn)
    (prevState : State) (formData : FormData) (w : World)
    (c : string) (a : Js.number) (s : string) :
  CreateInvoice (raw_fields formData)
  = Zod.SafeParseSuccess
      {| Zod.customerId := c; Zod.amount := a; Zod.status := s |} ->
  db_fault (INSERT_INTO_invoices c (a * 100)%float s (split_T_0 (now w)))
    (invoices w) = None ->
  let rows := invoices (snd (createInvoice gen_id db_fault prevState
                               formData w)) in
  rows
  = invoices w
    ++ [ {| row_id := gen_id (invoices w); row_customer_id := c;
            row_amount := (a * 100)%float; row_status := s;
            row_date := split_T_0 (now w) |} ]
  /\ List.length rows = S (List.length (invoices w))
  /\ forall n r,
       nth_error (invoices w) n = Some r -> nth_error rows n = Some r.
Proof.
  intros E F rows. subst rows.
  rewrite (createInvoice_success gen_id db_fault _ _ _ _ _ _ E F).
  cbn [snd after_success invoices execute].
  split; [reflexivity|]. split.
  - rewrite length_app. cbn [List.length]. rewrite Nat.add_1_r. reflexivity.
  - intros n r Hn. rewrite nth_error_app1; [exact Hn|].
    apply nth_error_Some. congruence.
Qed.

Lemma X6_create_appends_one_row_witness :
  (CreateInvoice (raw_fields (form "c3" "50" "pending"))
   = Zod.SafeParseSuccess
       {| Zod.customerId := "c3"; Zod.amount := 50%float;
          Zod.status := "pending" |}
   /\ no_fault
        (INSERT_INTO_invoices "c3" (50 * 100)%float "pending"
           (split_T_0 (now sample_world)))
        (invoices sample_world) = None)
  /\ invoices (snd (createInvoice next_id no_fault no_state
                      (form "c3" "50" "pending") sample_world))
     = sample_rows
       ++ [ {| row_id := "inv-new"; row_customer_id := "c3";
               row_amount := 5000%float; row_status := "pending";
               row_date := "2024-05-01" |} ].
Proof.
  split; [split; reflexivity|].
  apply (X6_create_appends_one_row next_id no_fault no_state
           (form "c3" "50" "pending") sample_world
           "c3" 50%float "pending"); reflexivity.
Defined.

(** X7: createInvoice and updateInvoice end in one of two ways, whatever
    the form and whatever the storage does. Either they throw the
    redirect to the invoices listing, having invalidated the cache once;
    or they return a result that carries a message, and then the table
    is as it was and neither an invalidation nor a redirect was
    signalled. They never return without a result and never throw
    anything but the redirect. *)
Theorem X7_redirect_or_message
    (gen_id : list InvoiceRow -> string)
    (db_fault : SqlStatement -> list InvoiceRow -> option Exn)
    (id : string) (prevState : State) (formData : FormData) (w : World) :
  (let run := createInvoice gen_id db_fault prevState formData w in
   (fst run = Throw (NEXT_REDIRECT "/dashboard/invoices")
    /\ passes_validation formData = true
    /\ revalidations (trace (snd run))
       = revalidations (trace w) ++ [EvRevalidatePath "/dashboard/invoices"])
   \/ (exists errs m,
          fst run = Return (Some {| errors := errs; message := Some m |})
          /\ invoices (snd run) = invoices w
          /\ revalidations (trace (snd run)) = revalidations (trace w)
          /\ redirects (trace (snd run)) = redirects (trace w)))
  /\ (let run := updateInvoice gen_id db_fault id prevState formData w in
      (fst run = Throw (NEXT_REDIRECT "/dashboard/invoices")
       /\ passes_validation formData = true
       /\ revalidations (trace (snd run))
          = revalidations (trace w)
            ++ [EvRevalidatePath "/dashboard/invoices"])
      \/ (exists errs m,
             fst run = Return (Some {| errors := errs; message := Some m |})
             /\ invoices (snd run) = invoices w
             /\ revalidations (trace (snd run)) = revalidations (trace w)
             /\ redirects (trace (snd run)) = redirects (trace w))).
Proof.
  split; intros run; subst run.
  - destruct (createInvoice_cases gen_id db_fault prevState formData w)
      as [(c & a & s & E & _ & _ & R)|[(st & R)|(errs & R)]]; rewrite R.
    + left. split; [reflexivity|]. split.
      * unfold passes_validation. rewrite E. reflexivity.
      * cbn [snd after_success trace]. unfold revalidations.
        rewrite filter_app. reflexivity.
    + right. do 2 eexists. split; [reflexivity|]. split; [reflexivity|].
      cbn [snd]. split; apply filter_after_failure; reflexivity.
    + right. do 2 eexists. repeat split.
  - destruct (updateInvoice_cases gen_id db_fault id prevState formData w)
      as [(c & a & s & E & _ & _ & R)|[(st & R)|(errs & R)]]; rewrite R.
    + left. split; [reflexivity|]. split.
      * unfold passes_validation. change CreateInvoice with UpdateInvoice.
        rewrite E. reflexivity.
      * cbn [snd after_success trace]. unfold revalidations.
        rewrite filter_app. reflexivity.
    + right. do 2 eexists. split; [reflexivity|]. split; [reflexivity|].
      cbn [snd]. split; apply filter_after_failure; reflexivity.
    + right. do 2 eexists. repeat split.
Qed.

(** X8: after a deleteInvoice whose DELETE succeeded no row has the
    given id, and the rows left are exactly the former rows with another
    id; a second deleteInvoice of the same id then finds nothing to
    delete, succeeds, and leaves the table as it is. *)
Theorem X8_delete_removes_every_match_and_is_idempotent
    (gen_id : list InvoiceRow -> string)
    (db_fault : SqlStatement -> list InvoiceRow -> option Exn)
    (id : string) (w : World) :
  db_fault (DELETE_FROM_invoices id) (invoices w) = None ->
  let w1 := snd (deleteInvoice gen_id db_fault id w) in
  has_id id (invoices w1) = false
  /\ (forall r, In r (invoices w1) <-> In r (invoices w) /\ row_id r <> id)
  /\ (db_fault (DELETE_FROM_invoices id) (invoices w1) = None ->
      fst (deleteInvoice gen_id db_fault id w1) = Return None
      /\ invoices (snd (deleteInvoice gen_id db_fault id w1)) = invoices w1).
Proof.
  intros F w1. subst w1.
  rewrite (deleteInvoice_success gen_id db_fault _ _ F).
  cbn [snd]. split; [apply delete_removes_id|]. split.
  - intros r. cbn [after_success invoices execute]. rewrite filter_In.
    destruct (String.eqb_spec (row_id r) id) as [E|N]; cbn [negb];
      split; intros [H1 H2]; split; auto; discriminate.
  - intros F1. rewrite (deleteInvoice_success gen_id db_fault _ _ F1).
    cbn [fst snd]. split; [reflexivity|].
    cbn [after_success invoices]. apply (delete_no_match gen_id).
    apply no_id_no_match. apply delete_removes_id.
Qed.

Lemma X8_delete_removes_every_match_and_is_idempotent_witness :
  no_fault (DELETE_FROM_invoices "inv-1") (invoices sample_world) = None
  /\ has_id "inv-1"
       (invoices (snd (deleteInvoice next_id no_fault "inv-1" sample_world)))
     = false
  /\ invoices (snd (deleteInvoice next_id no_fault "inv-1" sample_world))
     = [ {| row_id := "inv-2"; row_customer_id := "c2";
            row_amount := 1234%float; row_status := "paid";
            row_date := "2024-02-20" |} ].
Proof.
  split; [reflexivity|]. split; [|reflexivity].
  apply (X8_delete_removes_every_match_and_is_idempotent next_id no_fault
           "inv-1" sample_world).
  reflexivity.
Defined.

(** X9: two successful updateInvoice runs on the same id compose to the
    second one: the table they leave is the one the second UPDATE alone
    would have produced from the original table. In particular,
    submitting the same form twice changes nothing more than submitting
    it once. *)
Theorem X9_update_last_write_wins
    (gen_id : list InvoiceRow -> string)
    (db_fault : SqlStatement -> list InvoiceRow -> option Exn)
    (id : string) (prevState : State) (formData1 formData2 : FormData)
    (w : World) (c1 : string) (a1 : Js.number) (s1 : string)
    (c2 : string) (a2 : Js.number) (s2 : string) :
  UpdateInvoice (raw_fields formData1)
  = Zod.SafeParseSuccess
      {| Zod.customerId := c1; Zod.amount := a1; Zod.status := s1 |} ->
  UpdateInvoice (raw_fields formData2)
  = Zod.SafeParseSuccess
      {| Zod.customerId := c2; Zod.amount := a2; Zod.status := s2 |} ->
  let w1 := snd (updateInvoice gen_id db_fault id prevState formData1 w) in
  db_fault (UPDATE_invoices c1 (a1 * 100)%float s1 id) (invoices w) = None ->
  db_fault (UPDATE_invoices c2 (a2 * 100)%float s2 id) (invoices w1) = None ->
  invoices (snd (updateInvoice gen_id db_fault id prevState formData2 w1))
  = execute gen_id (UPDATE_invoices c2 (a2 * 100)%float s2 id) (invoices w)
  /\ (formData2 = formData1 ->
      invoices (snd (updateInvoice gen_id db_fault id prevState formData2 w1))
      = invoices w1).
Proof.
  intros E1 E2 w1 F1 F2.
  rewrite (updateInvoice_success gen_id db_fault _ _ _ _ _ _ _ E2 F2).
  subst w1.
  rewrite (updateInvoice_success gen_id db_fault _ _ _ _ _ _ _ E1 F1) in *.
  cbn [snd after_success invoices] in *.
  split; [apply update_twice|].
  intros ->. rewrite E1 in E2. injection E2 as <- <- <-.
  apply update_twice.
Qed.

Lemma X9_update_last_write_wins_witness :
  (UpdateInvoice (raw_fields (form "c7" "1" "pending"))
   = Zod.SafeParseSuccess
       {| Zod.customerId := "c7"; Zod.amount := 1%float;
          Zod.status := "pending" |}
   /\ UpdateInvoice (raw_fields (form "c9" "12.34" "paid"))
      = Zod.SafeParseSuccess
          {| Zod.customerId := "c9"; Zod.amount := 12.34%float;
             Zod.status := "paid" |})
  /\ invoices
       (snd (updateInvoice next_id no_fault "inv-1" no_state
               (form "c9" "12.34" "paid")
               (snd (updateInvoice next_id no_fault "inv-1" no_state
                       (form "c7" "1" "pending") sample_world))))
     = execute next_id (UPDATE_invoices "c9" (12.34 * 100)%float "paid" "inv-1")
         (invoices sample_world).
Proof.
  split; [split; reflexivity|].
  apply (X9_update_last_write_wins next_id no_fault "inv-1" no_state
           (form "c7" "1" "pending") (form "c9" "12.34" "paid") sample_world
           "c7" 1%float "pending" "c9" 12.34%float "paid");
    reflexivity.
Defined.

(** X10: creating an invoice and then deleting the id the database gave
    it restores the table, provided that id was not already in use and
    both statements succeed. *)
Theorem X10_create_then_delete_restores_table
    (gen_id : list InvoiceRow -> string)
    (db_fault : SqlStatement -> list InvoiceRow -> option Exn)
    (prevState : State) (formData : FormData) (w : World)
    (c : string) (a : Js.number) (s : string) :
  CreateInvoice (raw_fields formData)
  = Zod.SafeParseSuccess
      {| Zod.customerId := c; Zod.amount := a; Zod.status := s |} ->
  has_id (gen_id (invoices w)) (invoices w) = false ->
  let w1 := snd (createInvoice gen_id db_fault prevState formData w) in
  db_fault (INSERT_INTO_invoices c (a * 100)%float s (split_T_0 (now w)))
    (invoices w) = None ->
  db_fault (DELETE_FROM_invoices (gen_id (invoices w))) (invoices w1) = None ->
  invoices (snd (deleteInvoice gen_id db_fault (gen_id (invoices w)) w1))
  = invoices w.
Proof.
  intros E Hfresh w1 F1 F2.
  rewrite (deleteInvoice_success gen_id db_fault _ _ F2).
  subst w1.
  rewrite (createInvoice_success gen_id db_fault _ _ _ _ _ _ E F1).
  cbn [snd after_success invoices].
  apply delete_after_insert. exact Hfresh.
Qed.

Lemma X10_create_then_delete_restores_table_witness :
  (CreateInvoice (raw_fields (form "c3" "50" "pending"))
   = Zod.SafeParseSuccess
       {| Zod.customerId := "c3"; Zod.amount := 50%float;
          Zod.status := "pending" |}
   /\ has_id (next_id (invoices sample_world)) (invoices sample_world)
      = false)
  /\ invoices
       (snd (deleteInvoice next_id no_fault (next_id (invoices sample_world))
               (snd (createInvoice next_id no_fault no_state
                       (form "c3" "50" "pending") sample_world))))
     = invoices sample_world.
Proof.
  split; [split; reflexivity|].
  apply (X10_create_then_delete_restores_table next_id no_fault no_state
           (form "c3" "50" "pending") sample_world "c3" 50%float "pending");
    reflexivity.
Defined.

(** X11: the three actions keep the status column within the enum: if
    every row of the table has status "pending" or "paid" before
    createInvoice, updateInvoice or deleteInvoice runs, then so has every
    row after it, whatever the form holds and whatever the storage
    does. *)
Theorem X11_status_column_stays_in_enum
    (gen_id : list InvoiceRow -> string)
    (db_fault : SqlStatement -> list InvoiceRow -> option Exn)
    (id : string) (prevState : State) (formData : FormData) (w : World) :
  forallb valid_status (invoices w) = true ->
  forallb valid_status
    (invoices (snd (createInvoice gen_id db_fault prevState formData w)))
  = true
  /\ forallb valid_status
       (invoices (snd (updateInvoice gen_id db_fault id prevState formData w)))
     = true
  /\ forallb valid_status
       (invoices (snd (deleteInvoice gen_id db_fault id w))) = true.
Proof.
  intros H. split; [|split].
  - destruct (createInvoice_cases gen_id db_fault prevState formData w)
      as [(c & a & s & _ & Hs & _ & R)|[(st & R)|(errs & R)]]; rewrite R;
      cbn [snd after_success after_failure invoices]; [|exact H|exact H].
    apply execute_keeps_valid_status; [exact Hs|exact H].
  - destruct (updateInvoice_cases gen_id db_fault id prevState formData w)
      as [(c & a & s & _ & Hs & _ & R)|[(st & R)|(errs & R)]]; rewrite R;
      cbn [snd after_success after_failure invoices]; [|exact H|exact H].
    apply execute_keeps_valid_status; [exact Hs|exact H].
  - destruct (db_fault (DELETE_FROM_invoices id) (invoices w)) as [e|] eqn:F.
    + rewrite (deleteInvoice_db_failure gen_id db_fault _ _ _ F). exact H.
    + rewrite (deleteInvoice_success gen_id db_fault _ _ F).
      cbn [snd after_success invoices].
      apply execute_keeps_valid_status; [exact I|exact H].
Qed.

Lemma X11_status_column_stays_in_enum_witness :
  forallb valid_status (invoices sample_world) = true
  /\ forallb valid_status
       (invoices (snd (createInvoice next_id no_fault no_state
                         (form "c3" "50" "paid") sample_world))) = true
  /\ forallb valid_status
       (invoices (snd (updateInvoice next_id no_fault "inv-1" no_state
                         (form "c3" "50" "paid") sample_world))) = true
  /\ forallb valid_status
       (invoices (snd (deleteInvoice next_id no_fault "inv-1" sample_world)))
     = true.
Proof.
  split; [reflexivity|].
  apply (X11_status_column_stays_in_enum next_id no_fault "inv-1" no_state
           (form "c3" "50" "paid") sample_world).
  reflexivity.
Defined.

(** X12: whatever signIn does, authenticate leaves the world as signIn
    left it and never throws an AuthError. It returns nothing exactly
    when signIn returned; a message it returns is one of its two fixed
    strings and stands for an AuthError that signIn threw. *)
Theorem X12_authenticate_outcomes
    (signIn : string -> FormData -> Action unit)
    (prevState : option string) (formData : FormData) (w : World) :
  let run := authenticate signIn prevState formData w in
  snd run = snd (signIn "credentials" formData w)
  /\ (forall type, fst run <> Throw (AuthError type))
  /\ (fst run = Return None <->
      fst (signIn "credentials" formData w) = Return tt)
  /\ (forall m,
        fst run = Return (Some m) ->
        (m = "Invalid credentials." \/ m = "Something went wrong.")
        /\ exists type,
             fst (signIn "credentials" formData w) = Throw (AuthError type)).
Proof.
  intros run. subst run. unfold authenticate, try_catch, bind.
  destruct (signIn "credentials" formData w) as [[[]|e] w1]; cbn [fst snd].
  - unfold ret. cbn [fst snd].
    split; [reflexivity|]. split; [discriminate|].
    split; [split; reflexivity|]. discriminate.
  - destruct e as [url|d|type|d]; unfold throw, ret; cbn [fst snd];
      try (split; [reflexivity|]; split; [discriminate|];
           split; [split; discriminate|]; discriminate).
    destruct (String.eqb type "CredentialsSignin"); cbn [fst snd];
      (split; [reflexivity|]; split; [discriminate|];
       split; [split; discriminate|]);
      intros m Hm; injection Hm as <-; (split; [auto|eexists; reflexivity]).
Qed.

Lemma X12_authenticate_outcomes_witness :
  fst (authenticate (signIn_rejects (AuthError "AccessDenied")) None []
         sample_world)
  = Return (Some "Something went wrong.")
  /\ ("Something went wrong." = "Invalid credentials."
      \/ "Something went wrong." = "Something went wrong.")
  /\ exists type,
       fst (signIn_rejects (AuthError "AccessDenied") "credentials" []
              sample_world)
       = Throw (AuthError type).
Proof.
  split; [reflexivity|].
  destruct (X12_authenticate_outcomes
              (signIn_rejects (AuthError "AccessDenied")) None []
              sample_world) as (_ & _ & _ & H).
  apply (H "Something went wrong."). reflexivity.
Defined.

(** *** What the actions read of the form *)

(** X13: the invoice actions read the form through its customerId,
    amount and status entries only: two forms that agree on these three
    give the same run. In particular an id or date entry smuggled into
    the form changes nothing, so the form can set neither the id nor the
    date of an invoice. *)
Theorem X13_only_three_fields_are_read
    (gen_id : list InvoiceRow -> string)
    (db_fault : SqlStatement -> list InvoiceRow -> option Exn)
    (id : string) (prevState : State) (formData formData' : FormData)
    (w : World) :
  (get "customerId" formData = get "customerId" formData' ->
   get "amount" formData = get "amount" formData' ->
   get "status" formData = get "status" formData' ->
   createInvoice gen_id db_fault prevState formData w
   = createInvoice gen_id db_fault prevState formData' w
   /\ updateInvoice gen_id db_fault id prevState formData w
      = updateInvoice gen_id db_fault id prevState formData' w)
  /\ (forall k v,
        k <> "customerId" -> k <> "amount" -> k <> "status" ->
        createInvoice gen_id db_fault prevState ((k, v) :: formData) w
        = createInvoice gen_id db_fault prevState formData w
        /\ updateInvoice gen_id db_fault id prevState ((k, v) :: formData) w
           = updateInvoice gen_id db_fault id prevState formData w).
Proof.
  assert (G : forall fd fd',
             get "customerId" fd = get "customerId" fd' ->
             get "amount" fd = get "amount" fd' ->
             get "status" fd = get "status" fd' ->
             createInvoice gen_id db_fault prevState fd w
             = createInvoice gen_id db_fault prevState fd' w
             /\ updateInvoice gen_id db_fault id prevState fd w
                = updateInvoice gen_id db_fault id prevState fd' w).
  { intros fd fd' Hc Ha Hs.
    unfold createInvoice, updateInvoice, raw_fields.
    rewrite Hc, Ha, Hs. split; reflexivity. }
  split; [apply G|].
  intros k v Nc Na Ns.
  apply G; cbn [get];
    match goal with
    | |- (if String.eqb k ?n then _ else _) = _ =>
        destruct (String.eqb_spec k n); [contradiction|reflexivity]
    end.
Qed.

Lemma X13_only_three_fields_are_read_witness :
  ("date" <> "customerId" /\ "date" <> "amount" /\ "date" <> "status")
  /\ createInvoice next_id no_fault no_state
       (("date", EntryString "1999-01-01") :: form "c1" "50" "paid")
       sample_world
     = createInvoice next_id no_fault no_state (form "c1" "50" "paid")
         sample_world
  /\ updateInvoice next_id no_fault "inv-1" no_state
       (("date", EntryString "1999-01-01") :: form "c1" "50" "paid")
       sample_world
     = updateInvoice next_id no_fault "inv-1" no_state
         (form "c1" "50" "paid") sample_world.
Proof.
  split; [repeat split; discriminate|].
  apply (proj2 (X13_only_three_fields_are_read next_id no_fault "inv-1"
                  no_state (form "c1" "50" "paid") (form "c1" "50" "paid")
                  sample_world)
           "date" (EntryString "1999-01-01")); discriminate.
Defined.

(** *** Whitespace around the amount *)

Lemma trim_start_app_blank (ws l : list ascii) :
  forallb Js.is_whitespace ws = true ->
  Js.trim_start (ws ++ l) = Js.trim_start l.
Proof.
  induction ws as [|c ws IH]; cbn [forallb app Js.trim_start];
    [reflexivity|].
  destruct (Js.is_whitespace c); cbn [andb]; [exact IH|discriminate].
Qed.

Lemma trim_start_nil_blank (l : list ascii) :
  Js.trim_start l = [] -> forallb Js.is_whitespace l = true.
Proof.
  induction l as [|c l IH]; cbn [forallb Js.trim_start]; [reflexivity|].
  destruct (Js.is_whitespace c); cbn [andb]; [exact IH|discriminate].
Qed.

Lemma trim_start_app_kept (l x : list ascii) :
  Js.trim_start l <> [] ->
  Js.trim_start (l ++ x) = Js.trim_start l ++ x.
Proof.
  induction l as [|c l IH]; cbn [app Js.trim_start].
  - intros H. contradiction.
  - destruct (Js.is_whitespace c); [exact IH|reflexivity].
Qed.

Lemma forallb_rev {A} (p : A -> bool) (l : list A) :
  forallb p l = true -> forallb p (rev l) = true.
Proof.
  rewrite !forallb_forall. intros H x Hx. apply H, in_rev, Hx.
Qed.

Lemma trim_padded (ws l ws' : list ascii) :
  forallb Js.is_whitespace ws = true ->
  forallb Js.is_whitespace ws' = true ->
  Js.trim (ws ++ l ++ ws') = Js.trim l.
Proof.
  intros H H'. unfold Js.trim. rewrite (trim_start_app_blank _ _ H).
  destruct (Js.trim_start l) as [|c t] eqn:E.
  - assert (B : forallb Js.is_whitespace (l ++ ws') = true).
    { rewrite forallb_app, (trim_start_nil_blank _ E), H'. reflexivity. }
    rewrite (trim_start_blank _ B). reflexivity.
  - rewrite trim_start_app_kept by (rewrite E; discriminate).
    rewrite E, rev_app_distr.
    rewrite (trim_start_app_blank _ _ (forallb_rev _ _ H')). reflexivity.
Qed.

Lemma list_ascii_of_string_app (a b : string) :
  list_ascii_of_string (a ++ b)%string
  = list_ascii_of_string a ++ list_ascii_of_string b.
Proof.
  induction a as [|c a IH]; cbn; [reflexivity|]. rewrite IH. reflexivity.
Qed.

(** X14: whitespace before and after the amount does not count: an
    amount padded with blanks coerces to the same number as the amount
    alone, so it offends validation exactly when the bare amount does. *)
Theorem X14_amount_padding_is_ignored
    (formData : FormData) (ws s ws' : string) :
  blank ws = true ->
  blank ws' = true ->
  Js.StringToNumber (ws ++ s ++ ws')%string = Js.StringToNumber s
  /\ (get "amount" formData = Some (EntryString (ws ++ s ++ ws')%string) ->
      Number (get "amount" formData) = Js.StringToNumber s
      /\ offending "amount" formData
         = PrimFloat.is_nan (Js.StringToNumber s)).
Proof.
  intros H H'.
  assert (E : Js.StringToNumber (ws ++ s ++ ws')%string
              = Js.StringToNumber s).
  { unfold Js.StringToNumber.
    rewrite !list_ascii_of_string_app, (trim_padded _ _ _ H H').
    reflexivity. }
  split; [exact E|].
  intros G. unfold offending. cbn [String.eqb Ascii.eqb Bool.eqb].
  rewrite G. cbn [Number]. rewrite E. split; reflexivity.
Qed.

Lemma X14_amount_padding_is_ignored_witness :
  (blank "  " = true /\ blank " " = true)
  /\ Js.StringToNumber ("  " ++ "12.34" ++ " ")%string
     = Js.StringToNumber "12.34"
  /\ (get "amount" (form "c1" "  12.34 " "paid")
      = Some (EntryString ("  " ++ "12.34" ++ " ")%string) ->
      Number (get "amount" (form "c1" "  12.34 " "paid"))
      = Js.StringToNumber "12.34"
      /\ offending "amount" (form "c1" "  12.34 " "paid")
         = PrimFloat.is_nan (Js.StringToNumber "12.34")).
Proof.
  split; [split; reflexivity|].
  apply (X14_amount_padding_is_ignored (form "c1" "  12.34 " "paid")
           "  " "12.34" " "); reflexivity.
Defined.
